(** * book_service: filter composition, aggregation summary and activity log

    A shallow embedding of [main.go]: the HTTP handlers [book], [store],
    [search] and [activity], the catalog operations they delegate to, and
    the pieces of the Go standard library, of the Elasticsearch client and
    of the Redis client whose behaviour the handlers depend on.

    Conventions.
    - A Go function returning [(T, error)] returns a pair [T * option error]
      ([None] is [nil]).  A library call that yields either a value or an
      error is a sum [T + error]; its left pointer result is [nil] in the
      error case.
    - A run-time panic (nil pointer dereference) is the outcome [Panicked].
    - The response writer, the two stores and the clock live in [World];
      every call on the two store clients is recorded in [calls].
    - Output on the process's standard output ([fmt.Println],
      [fmt.Printf]) is not modelled. *)

From Stdlib Require Import ZArith QArith Qround String Ascii List Lia.
From Stdlib Require Import Floats.SpecFloat.
From stdpp Require Import gmap strings list fin_maps sorting pretty.

Set Warnings "-register-all".

Open Scope string_scope.
Open Scope Z_scope.

(** ** Go values shared by all packages *)

(** Error values.  [LibError] is an error built inside a library (the
    Elasticsearch client, the Redis client, [time], [encoding/json]);
    [NumError] is [*strconv.NumError]; [ErrorsNew] and [ErrorsWrap] are the
    two constructors of [github.com/fiverr/go_errors] that [main.go] uses. *)
Inductive error : Type :=
| LibError (msg : string)
| NumError (func num why : string)
| ErrorsNew (msg : string)
| ErrorsWrap (cause : error) (msg : string).

#[global] Instance error_eq_dec : EqDecision error.
Proof. solve_decision. Defined.

(** The double quote character, for string constants that contain it. *)
Definition dquote : string := String "034"%char "".

(** ** Package [strings] *)
Module strings.

(** [strings.Split(s, sep)] for a separator of one byte: the pieces
    between consecutive occurrences of [sep]; a string without [sep]
    (the empty string too) is its own single piece. *)
Fixpoint Split (s : string) (sep : ascii) : list string :=
  match s with
  | EmptyString => [EmptyString]
  | String c rest =>
      if Ascii.eqb c sep then EmptyString :: Split rest sep
      else match Split rest sep with
           | piece :: pieces => String c piece :: pieces
           | [] => [String c EmptyString]
           end
  end.

(** Whether the byte [c] occurs in [s]. *)
Fixpoint ContainsRune (s : string) (c : ascii) : bool :=
  match s with
  | EmptyString => false
  | String d rest => Ascii.eqb d c || ContainsRune rest c
  end.

End strings.

(** ** Package [strconv] *)
Module strconv.

Definition intSize : Z := 64.
Definition maxInt : Z := 2 ^ (intSize - 1) - 1.
Definition minInt : Z := - 2 ^ (intSize - 1).

Definition ErrSyntax : string := "invalid syntax".
Definition ErrRange : string := "value out of range".

Definition is_digit (c : ascii) : bool :=
  let n := Z.of_N (N_of_ascii c) in (48 <=? n) && (n <=? 57).

(** Value of a run of decimal digits, [None] at the first other byte. *)
Fixpoint digits (acc : Z) (s : string) : option Z :=
  match s with
  | EmptyString => Some acc
  | String c rest =>
      if is_digit c
      then digits (10 * acc + (Z.of_N (N_of_ascii c) - 48)) rest
      else None
  end.

(** [strconv.Atoi]: an optional sign, then one or more decimal digits,
    the value within the range of [int]. *)
Definition Atoi (s : string) : Z + error :=
  let '(neg, body) :=
    match s with
    | String c rest =>
        if Ascii.eqb c "-" then (true, rest)
        else if Ascii.eqb c "+" then (false, rest)
        else (false, s)
    | EmptyString => (false, s)
    end in
  match body with
  | EmptyString => inr (NumError "Atoi" s ErrSyntax)
  | _ =>
      match digits 0 body with
      | None => inr (NumError "Atoi" s ErrSyntax)
      | Some n =>
          let v := if neg then - n else n in
          if (minInt <=? v) && (v <=? maxInt) then inl v
          else inr (NumError "Atoi" s ErrRange)
      end
  end.

(** [strconv.ParseBool]. *)
Definition ParseBool (str : string) : bool + error :=
  if bool_decide (str ∈ ["1"; "t"; "T"; "TRUE"; "true"; "True"]) then inl true
  else if bool_decide (str ∈ ["0"; "f"; "F"; "FALSE"; "false"; "False"]) then inl false
  else inr (NumError "ParseBool" str ErrSyntax).

(** [%d] and [strconv.Itoa]. *)
Definition Itoa (n : Z) : string := pretty n.

End strconv.

(** ** Package [time] *)
Module time.

(** An instant: seconds since the Unix epoch, the nanosecond within that
    second, and the zone offset in seconds. *)
Record Time : Type := mkTime { unix : Z; nsec : Z; offset : Z }.

(** The zero [Time]: January 1, year 1, 00:00:00 UTC. *)
Definition zero : Time := mkTime (-62135596800) 0 0.

(** [t.Nanosecond()]: the nanosecond offset within the second, in
    [0, 999999999]. *)
Definition Nanosecond (t : Time) : Z := nsec t mod 1000000000.

Definition RFC3339 : string := "2006-01-02T15:04:05Z07:00".

End time.

(** ** [float64], [math.Round] and the conversion to [int] *)
Module math.

(** A [float64] is a [spec_float]: [S754_finite s m e] is the number
    [(-1)^s * m * 2^e]. *)
Definition float64 : Type := spec_float.

(** [math.Round(x)]: the nearest integer, halves away from zero;
    [Round(±0) = ±0], [Round(±Inf) = ±Inf], [Round(NaN) = NaN].
    For [e < 0] the magnitude [m / 2^-e] rounds to
    [(m + 2^(-e-1)) / 2^-e]. *)
Definition Round (x : float64) : float64 :=
  match x with
  | S754_finite s m e =>
      if 0 <=? e then x
      else
        let n := (Z.pos m + 2 ^ (- e - 1)) / 2 ^ (- e) in
        match n with
        | Z.pos p => S754_finite s p 0
        | _ => S754_zero s
        end
  | _ => x
  end.

(** The value an out-of-range conversion to [int] produces on amd64
    (the language leaves it to the implementation). *)
Definition int_indefinite : Z := strconv.minInt.

(** The conversion [int(x)]: the fraction is discarded (truncation
    towards zero). *)
Definition int (x : float64) : Z :=
  match x with
  | S754_zero _ => 0
  | S754_finite s m e =>
      let mag := if 0 <=? e then Z.pos m * 2 ^ e else Z.pos m / 2 ^ (- e) in
      let v := if s then - mag else mag in
      if (strconv.minInt <=? v) && (v <=? strconv.maxInt) then v
      else int_indefinite
  | _ => int_indefinite
  end.

(** The rational a finite [float64] denotes. *)
Definition value (x : float64) : option Q :=
  match x with
  | S754_zero _ => Some 0%Q
  | S754_finite s m e =>
      let q := if 0 <=? e then inject_Z (Z.pos m * 2 ^ e)
               else Qmake (Z.pos m) (Z.to_pos (2 ^ (- e))) in
      Some (if s then Qopp q else q)
  | _ => None
  end.

(** Rounding to the nearest integer, halves away from zero, as
    mathematics has it: [floor (|q| + 1/2)] with the sign of [q]. *)
Definition round_half_away_from_zero (q : Q) : Z :=
  if Qle_bool 0 q then Qfloor (q + (1 # 2))%Q else - Qfloor (- q + (1 # 2))%Q.

End math.

(** ** Package [fmt]: the verbs [main.go] uses *)
Module fmt.

Fixpoint join (sep : string) (l : list string) : string :=
  match l with
  | [] => ""
  | [s] => s
  | s :: rest => s +:+ sep +:+ join sep rest
  end.

(** [%s] applied to a [[]string]: the elements between brackets,
    separated by one space. *)
Definition slice_of_strings (l : list string) : string :=
  "[" +:+ join " " l +:+ "]".

End fmt.

(** ** The Elasticsearch client ([gopkg.in/olivere/elastic.v5]) *)
Module elastic.

(** The queries [main.go] builds.  [Range] carries the fields that
    [NewRangeQuery] initialises and [From]/[To] set; [Bool] carries the
    [must] clauses, the only ones [main.go] adds. *)
Inductive Query : Type :=
| Match (name : string) (text : string)
| Range (name : string) (from to : option Z) (includeLower includeUpper : bool)
| Bool (mustClauses : list Query).

Definition NewMatchQuery (name text : string) : Query := Match name text.
Definition NewRangeQuery (name : string) : Query := Range name None None true true.
Definition From (from : Z) (q : Query) : Query :=
  match q with
  | Range name _ to lo up => Range name (Some from) to lo up
  | _ => q
  end.
Definition To (to : Z) (q : Query) : Query :=
  match q with
  | Range name from _ lo up => Range name from (Some to) lo up
  | _ => q
  end.
Definition NewBoolQuery : Query := Bool [].
Definition Must (queries : list Query) (q : Query) : Query :=
  match q with
  | Bool must => Bool (must ++ queries)%list
  | _ => q
  end.

Definition must_of (q : Query) : list Query :=
  match q with
  | Bool must => must
  | _ => []
  end.

Definition is_range_on (field : string) (q : Query) : bool :=
  match q with
  | Range name _ _ _ _ => bool_decide (name = field)
  | _ => false
  end.

Inductive Aggregation : Type :=
| Cardinality_of (field : string).

(** What a [SearchService] has been given before [Do]. *)
Record SearchRequest : Type := mkSearchRequest {
  req_index : string;
  req_query : option Query;
  req_sort : option (string * bool);
  req_from : option Z;
  req_size : option Z;
  req_pretty : bool;
  req_aggregations : list (string * Aggregation)
}.

Record SearchHit : Type := mkSearchHit {
  Source : option string            (* *json.RawMessage, nil when absent *)
}.

Record SearchHits : Type := mkSearchHits {
  TotalHits : Z;
  Hits_Hits : list SearchHit
}.

(** One raw entry of the [Aggregations] map, seen through what
    [json.Unmarshal] into an [AggregationValueMetric] makes of it. *)
Inductive RawAggregation : Type :=
| RawNil                                      (* a nil *json.RawMessage *)
| RawValueMetric (value : option math.float64) (* decodes; "value" may be missing *)
| RawMalformed.                               (* does not decode *)

Record AggregationValueMetric : Type := mkValueMetric {
  Value : option math.float64       (* *float64 *)
}.

Record SearchResult : Type := mkSearchResult {
  Hits : option SearchHits;         (* *SearchHits *)
  Aggregations : gmap string RawAggregation
}.

(** [Aggregations.Cardinality(name)]: the metric and [found]. *)
Definition Cardinality (a : gmap string RawAggregation) (name : string)
  : option AggregationValueMetric :=
  match a !! name with
  | Some RawNil => Some (mkValueMetric None)
  | Some (RawValueMetric v) => Some (mkValueMetric v)
  | Some RawMalformed => None
  | None => None
  end.

Record IndexResponse : Type := mkIndexResponse {
  ir_Index : string; ir_Type : string; ir_Id : string
}.

Record DeleteResponse : Type := mkDeleteResponse {
  dr_Found : bool; dr_Index : string; dr_Type : string; dr_Id : string;
  dr_Version : Z
}.

Record GetResult : Type := mkGetResult {
  gr_Found : bool; gr_Source : option string
}.

Record UpdateResponse : Type := mkUpdateResponse {
  ur_Id : string; ur_Version : Z
}.

End elastic.

(** ** [main.go]: data *)

(** Book is the document stored in Elasticsearch. *)
Record Book : Type := mkBook {
  Title : string;
  AuthorName : string;
  Price : Z;
  EbookAvailable : bool;
  PublishDate : time.Time
}.

Record AggsRes : Type := mkAggsRes {
  Books : Z;
  Authors : Z
}.

Record Range : Type := mkRange {
  From : Z;
  To : Z
}.

Definition USER_INDEX : string := "books".
Definition USER_TYPE : string := "book".

(** [json.Marshal] of an [AggsRes]: an object with the two tagged keys in
    field order.  Marshalling two integers cannot fail. *)
Definition json_Marshal_AggsRes (a : AggsRes) : string * option error :=
  ("{" +:+ dquote +:+ "total books" +:+ dquote +:+ ":" +:+ strconv.Itoa (Books a)
   +:+ "," +:+ dquote +:+ "distinct authors" +:+ dquote +:+ ":"
   +:+ strconv.Itoa (Authors a) +:+ "}", None).

(** ** Semantics of queries on the document store

    A [Bool] query is the conjunction of its [must] clauses (with none it
    matches every document); a [Range] holds when the numeric field lies
    within the bounds that are set; how an analysed text field matches a
    text is the store's business and stays a parameter. *)
Section QuerySemantics.

Variable text_matches : string -> string -> Book -> bool.

Definition numeric_field (name : string) (b : Book) : option Z :=
  if bool_decide (name = "price") then Some (Price b) else None.

Definition above (lower : option Z) (inclusive : bool) (v : Z) : bool :=
  match lower with
  | None => true
  | Some lo => if inclusive then lo <=? v else lo <? v
  end.

Definition below (upper : option Z) (inclusive : bool) (v : Z) : bool :=
  match upper with
  | None => true
  | Some up => if inclusive then v <=? up else v <? up
  end.

Fixpoint matches (q : elastic.Query) (b : Book) : bool :=
  match q with
  | elastic.Match name text => text_matches name text b
  | elastic.Range name from to lo up =>
      match numeric_field name b with
      | Some v => above from lo v && below to up v
      | None => false
      end
  | elastic.Bool must => forallb (fun clause => matches clause b) must
  end.

End QuerySemantics.

(** ** The Redis client ([gopkg.in/redis.v5]) and the server behind it *)
Module redis.

(** [redis.Z]: one element of a sorted set with its score.  Every score
    this program writes is a nanosecond count, a whole number that a
    [float64] holds exactly, so scores are integers here. *)
Record ZEntry : Type := mkZ { Score : Z; Member : string }.

(** A sorted set maps each member to its one score; the server keeps a
    sorted set per key, and a key without elements does not exist. *)
Record Server : Type := mkServer {
  ping : string + error;            (* the reply to PING *)
  command_error : option error;     (* set when a later command fails *)
  db : gmap string (gmap string Z)
}.

Definition zset_of (s : Server) (key : string) : gmap string Z :=
  default ∅ (db s !! key).

(** ZADD key score member: a new member is added, a member already in
    the set has its score replaced.  The reply counts the new members. *)
Definition zadd (key : string) (e : ZEntry) (s : Server) : Z * Server :=
  let old := zset_of s key in
  (match old !! Member e with Some _ => 0 | None => 1 end,
   mkServer (ping s) (command_error s)
            (<[key := <[Member e := Score e]> old]> (db s))).

(** The order ZREVRANGE lists elements in: higher scores first, equal
    scores by member, greater member first. *)
Definition rev_before (x y : ZEntry) : Prop :=
  Score y < Score x ∨ (Score x = Score y ∧ String.leb (Member y) (Member x) = true).

#[global] Instance rev_before_dec : RelDecision rev_before.
Proof. intros x y. unfold rev_before. apply _. Defined.

Definition entries (zs : gmap string Z) : list ZEntry :=
  (λ kv, mkZ kv.2 kv.1) <$> map_to_list zs.

(** The elements with ranks [start] to [stop], both inclusive; a
    negative rank counts from the end. *)
Definition rank_range {A} (l : list A) (start stop : Z) : list A :=
  let llen := Z.of_nat (length l) in
  let start := if start <? 0 then llen + start else start in
  let stop := if stop <? 0 then llen + stop else stop in
  let start := if start <? 0 then 0 else start in
  if (stop <? start) || (llen <=? start) then []
  else
    let stop := if llen <=? stop then llen - 1 else stop in
    take (Z.to_nat (stop - start + 1)) (drop (Z.to_nat start) l).

(** A sorted set in the order of ZREVRANGE. *)
Definition ranked (zs : gmap string Z) : list ZEntry :=
  merge_sort rev_before (entries zs).

(** ZREVRANGE key start stop WITHSCORES. *)
Definition zrevrange (key : string) (start stop : Z) (s : Server) : list ZEntry :=
  rank_range (ranked (zset_of s key)) start stop.

End redis.

(** ** The world a request runs in *)

(** The document store as the client sees it during one request: what
    each service's [Do] answers. *)
Record Elasticsearch : Type := mkElasticsearch {
  new_simple_client : option error;
  index_do : string -> string -> string -> Book -> elastic.IndexResponse + error;
  delete_do : string -> string -> string -> elastic.DeleteResponse + error;
  get_do : string -> string -> string -> elastic.GetResult + error;
  update_do : string -> string -> string -> string -> elastic.UpdateResponse + error;
  search_do : elastic.SearchRequest -> elastic.SearchResult + error
}.

(** What a handler hands to [fmt.Fprintf(w, ...)]: a string, or an error
    printed with [%s]. *)
Inductive Written : Type :=
| WString (s : string)
| WError (e : error).

(** The calls on the Elasticsearch client and on the Redis client. *)
Inductive Call : Type :=
| ES_NewSimpleClient (url : string)
| ES_Index (index type id : string) (body : Book)
| ES_Delete (index type id : string)
| ES_Get (index type id : string)
| ES_Update (index type id : string) (title : string)
| ES_Search (request : elastic.SearchRequest)
| Redis_Ping
| Redis_ZAdd (key : string) (e : redis.ZEntry)
| Redis_ZRevRangeWithScores (key : string) (start stop : Z).

Record World : Type := mkWorld {
  es : Elasticsearch;
  rds : redis.Server;
  now : time.Time;                    (* what time.Now() reads *)
  response : list Written;            (* the http.ResponseWriter *)
  calls : list Call                   (* oldest first *)
}.

Inductive Outcome (A : Type) : Type :=
| Returned (a : A) (w : World)
| Panicked (w : World).
Arguments Returned {A} a w.
Arguments Panicked {A} w.

Definition world_of {A} (o : Outcome A) : World :=
  match o with Returned _ w => w | Panicked w => w end.

(** Computations of the program: a state monad over [World] in which a
    panic stops everything that follows. *)
Definition Go (A : Type) : Type := World -> Outcome A.

Definition ret {A} (a : A) : Go A := fun w => Returned a w.

Definition bind {A B} (m : Go A) (k : A -> Go B) : Go B :=
  fun w => match m w with
           | Returned a w' => k a w'
           | Panicked w' => Panicked w'
           end.

Definition panic {A} : Go A := fun w => Panicked w.

#[global] Instance Go_ret : MRet Go := @ret.
#[global] Instance Go_bind : MBind Go := fun A B k m => bind m k.

(** The world after one more call, one more write, a new Redis state. *)
Definition called (c : Call) (w : World) : World :=
  mkWorld (es w) (rds w) (now w) (response w) (calls w ++ [c]).

Definition wrote (x : Written) (w : World) : World :=
  mkWorld (es w) (rds w) (now w) (response w ++ [x]) (calls w).

Definition with_redis (s : redis.Server) (w : World) : World :=
  mkWorld (es w) s (now w) (response w) (calls w).

Definition record (c : Call) : Go unit := fun w => Returned tt (called c w).

Definition Fprintf (x : Written) : Go unit := fun w => Returned tt (wrote x w).

Definition ask_es {A} (f : Elasticsearch -> A) : Go A := fun w => Returned (f (es w)) w.

Definition time_Now : Go time.Time := fun w => Returned (now w) w.

Definition ask_redis {A} (f : redis.Server -> A) : Go A := fun w => Returned (f (rds w)) w.

Definition set_redis (s : redis.Server) : Go unit := fun w => Returned tt (with_redis s w).

(** [client.Ping().Result()] *)
Definition redis_Ping : Go (string + error) :=
  record Redis_Ping;; ask_redis redis.ping.

(** [client.ZAdd(key, z).Result()] *)
Definition redis_ZAdd (key : string) (z : redis.ZEntry) : Go (Z + error) :=
  record (Redis_ZAdd key z);;
  failure ← ask_redis redis.command_error;
  match failure with
  | Some e => mret (inr e)
  | None =>
      reply ← ask_redis (redis.zadd key z);
      set_redis reply.2;;
      mret (inl reply.1)
  end.

(** [client.ZRevRangeWithScores(key, start, stop).Result()] *)
Definition redis_ZRevRangeWithScores (key : string) (start stop : Z)
  : Go (list redis.ZEntry + error) :=
  record (Redis_ZRevRangeWithScores key start stop);;
  failure ← ask_redis redis.command_error;
  match failure with
  | Some e => mret (inr e)
  | None => items ← ask_redis (redis.zrevrange key start stop); mret (inl items)
  end.

(** ** [main.go]: functions

    The [client] and [ctx] arguments of the catalog functions are handles
    on the one document store of the [World] and are left implicit. *)

(** The part of [*http.Request] the handlers read. *)
Record Request : Type := mkRequest {
  Method : string;
  URL_Query : gmap string (list string)
}.

Definition newline : string := String "010"%char "".

Definition URL : string := "http://10.200.10.1:9200".

(** A service call on the document store: recorded, then answered. *)
Definition es_call {A} (c : Call) (answer : Elasticsearch -> A) : Go A :=
  record c;; ask_es answer.

(** [for _, x := range l { body }] *)
Fixpoint for_range {A} (l : list A) (body : A -> Go unit) : Go unit :=
  match l with
  | [] => mret tt
  | x :: rest => body x;; for_range rest body
  end.

Section Service.

(** [time.Parse(layout, value)] and the verb [%q] are taken as given. *)
Variable time_Parse : string -> string -> time.Time + error.
Variable fmt_q : string -> string.

Definition connectElasticSearch : Go (option error) :=
  err ← es_call (ES_NewSimpleClient URL) new_simple_client;
  match err with
  | Some err => mret (Some (ErrorsWrap err "cannot connect to elastic search"))
  | None => mret None
  end.

Definition connectRedis : Go (option error) :=
  reply ← redis_Ping;
  match reply with
  | inl pong => mret None
  | inr err => mret (Some err)
  end.

Definition addBook (id : string) (book : Book) : Go (string * option error) :=
  reply ← es_call (ES_Index "books" "book" id book)
                  (λ e, index_do e "books" "book" id book);
  match reply with
  | inr err => mret ("", Some (ErrorsWrap err "cannot add the book"))
  | inl put =>
      let s := "Indexed book " +:+ elastic.ir_Id put +:+ " to index "
               +:+ elastic.ir_Index put +:+ ", type " +:+ elastic.ir_Type put
               +:+ newline in
      mret (s, None)
  end.

Definition deleteBook (id : string) : Go (string * option error) :=
  reply ← es_call (ES_Delete "books" "book" id) (λ e, delete_do e "books" "book" id);
  match reply with
  | inr err => mret ("", Some (ErrorsWrap err "cannot delete the book"))
  | inl del =>
      if elastic.dr_Found del then
        let s := "Delete document " +:+ elastic.dr_Id del +:+ " in version "
                 +:+ strconv.Itoa (elastic.dr_Version del) +:+ " from index "
                 +:+ elastic.dr_Index del +:+ ", type " +:+ elastic.dr_Type del
                 +:+ newline in
        mret (s, None)
      else mret ("", None)
  end.

Definition getBook (id : string) : Go (string * option error) :=
  reply ← es_call (ES_Get "books" "book" id) (λ e, get_do e "books" "book" id);
  match reply with
  | inr err => mret ("", Some (ErrorsWrap err "Cannot GET a book"))
  | inl get =>
      if elastic.gr_Found get then
        match elastic.gr_Source get with
        | Some source => mret (source, None)
        | None => panic
        end
      else mret ("", None)
  end.

Definition writeToRedis (userID route method : string) : Go (option error) :=
  err ← connectRedis;
  match err with
  | Some err => mret (Some (ErrorsWrap err "cannot connect to Redis"))
  | None =>
      let value := "route=" +:+ route +:+ ", method=" +:+ method in
      t ← time_Now;
      let score := time.Nanosecond t in
      reply ← redis_ZAdd userID (redis.mkZ score value);
      match reply with
      | inr err => mret (Some (ErrorsWrap err "cannot set key in Redis"))
      | inl _ => mret None
      end
  end.

Definition updateBook (id title : string) : Go (string * option error) :=
  reply ← es_call (ES_Update USER_INDEX USER_TYPE id title)
                  (λ e, update_do e USER_INDEX USER_TYPE id title);
  match reply with
  | inr err => mret ("", Some err)
  | inl update =>
      let s := "New version of book " +:+ fmt_q (elastic.ur_Id update)
               +:+ " is now " +:+ strconv.Itoa (elastic.ur_Version update)
               +:+ newline in
      mret (s, None)
  end.

(** The query [searchBook] composes (lines 137 to 147). *)
Definition searchBook_query (title authorName : string) (priceRange : Range)
  : elastic.Query :=
  let q : list elastic.Query := [] in
  let q := if bool_decide (title ≠ "")
           then (q ++ [elastic.NewMatchQuery "title" title])%list else q in
  let q := if bool_decide (authorName ≠ "")
           then (q ++ [elastic.NewMatchQuery "author_name" authorName])%list else q in
  let q := if negb ((From priceRange =? -1) && (To priceRange =? -1))
           then (q ++ [elastic.To (To priceRange)
                         (elastic.From (From priceRange) (elastic.NewRangeQuery "price"))])%list
           else q in
  elastic.Must q elastic.NewBoolQuery.

Definition searchBook_request (query : elastic.Query) : elastic.SearchRequest :=
  elastic.mkSearchRequest "books" (Some query) (Some ("title", true))
                          (Some 0) (Some 10) true [].

Definition searchBook (title authorName : string) (priceRange : Range)
  : Go (string * option error) :=
  let query := searchBook_query title authorName priceRange in
  reply ← es_call (ES_Search (searchBook_request query))
                  (λ e, search_do e (searchBook_request query));
  match reply with
  | inr _ => panic                  (* searchResult is nil, the error dropped *)
  | inl searchResult =>
      match elastic.Hits searchResult with
      | None => panic
      | Some hits =>
          if (0 <? length (elastic.Hits_Hits hits))%nat then
            match mapM elastic.Source (elastic.Hits_Hits hits) with
            | None => panic         (* a hit without source *)
            | Some booksResult => mret (fmt.slice_of_strings booksResult, None)
            end
          else mret ("", None)
      end
  end.

Definition getParamValue (req : Request) (paramName : string) : string :=
  match default [] (URL_Query req !! paramName) with
  | first :: _ => first
  | [] => ""
  end.

Definition activity (req : Request) : Go unit :=
  err ← connectRedis;
  match err with
  | Some err => Fprintf (WError (ErrorsWrap err "cannot connect to Redis"))
  | None =>
      if bool_decide (Method req = "GET") then
        let userId := getParamValue req "user_id" in
        if bool_decide (userId ≠ "") then
          reply ← redis_ZRevRangeWithScores userId 0 2;
          match reply with
          | inr err => Fprintf (WError (ErrorsWrap err "cannot get key from Redis"))
          | inl resultSet =>
              for_range resultSet
                (λ zItem, Fprintf (WString (redis.Member zItem +:+ newline)))
          end
        else mret tt
      else
        let msg := "Unsupported request for /activity " +:+ Method req in
        Fprintf (WError (ErrorsNew msg))
  end.

(** The verb dispatch of [book] (lines 260 to 272). *)
Definition book_dispatch (method id title authorName : string) (price : Z)
  (ebookAvailable : bool) (publishDate : time.Time) : Go (string * option error) :=
  if bool_decide (method = "GET") then getBook id
  else if bool_decide (method = "DELETE") then deleteBook id
  else if bool_decide (method = "POST") then updateBook id title
  else if bool_decide (method = "PUT") then
    addBook id (mkBook title authorName price ebookAvailable publishDate)
  else
    let msg := "Unsupported request for /book " +:+ method in
    mret ("", Some (ErrorsNew msg)).

(** The typed parameters [book] extracts (lines 227 to 257): the first
    conversion that fails ends the request with its wrapped error;
    a parameter that is missing keeps the zero value of its type. *)
Definition book_params (req : Request) : (bool * Z * time.Time) + error :=
  let tempeBookAvailable := getParamValue req "ebook_available" in
  match (if bool_decide (tempeBookAvailable ≠ "")
         then strconv.ParseBool tempeBookAvailable else inl false) with
  | inr err =>
      inr (ErrorsWrap err
             "conversion from string to bool for field ebookAvailable failed")
  | inl ebookAvailable =>
      let tempPrice := getParamValue req "price" in
      match (if bool_decide (tempPrice ≠ "")
             then strconv.Atoi tempPrice else inl 0) with
      | inr err =>
          inr (ErrorsWrap err
                 "conversion from string to int for field price failed")
      | inl price =>
          let tempPublishDate := getParamValue req "publish_date" in
          match (if bool_decide (tempPublishDate ≠ "")
                 then time_Parse time.RFC3339 tempPublishDate
                 else inl time.zero) with
          | inr err =>
              inr (ErrorsWrap err
                     "conversion from string to time for field publishDate failed")
          | inl publishDate => inl (ebookAvailable, price, publishDate)
          end
      end
  end.

Definition book (req : Request) : Go unit :=
  err ← connectElasticSearch;
  match err with
  | Some err => Fprintf (WError err)
  | None =>
      let id := getParamValue req "id" in
      let title := getParamValue req "title" in
      let authorName := getParamValue req "author_name" in
      let userId := getParamValue req "user_id" in
      match book_params req with
      | inr err => Fprintf (WError err)
      | inl (ebookAvailable, price, publishDate) =>
          '(result, err) ← book_dispatch (Method req) id title authorName
                             price ebookAvailable publishDate;
          match err with
          | Some err => Fprintf (WError err)
          | None =>
              Fprintf (WString result);;
              if bool_decide (userId ≠ "") then
                err ← writeToRedis userId "book" (Method req);
                match err with
                | Some err => Fprintf (WError err)
                | None => mret tt
                end
              else mret tt
          end
      end
  end.

Definition storeBook_request : elastic.SearchRequest :=
  let cardinalityAgg := elastic.Cardinality_of "author_name" in
  elastic.mkSearchRequest USER_INDEX None None None None true
                          [("distinctAuthors", cardinalityAgg)].

Definition storeBook : Go (string * option error) :=
  reply ← es_call (ES_Search storeBook_request) (λ e, search_do e storeBook_request);
  match reply with
  | inr err => panic                (* searchResult is nil; err is not looked at *)
  | inl searchResult =>
      match elastic.Cardinality (elastic.Aggregations searchResult) "distinctAuthors" with
      | None => mret ("", None)
      | Some distinctAuthors =>
          match elastic.Hits searchResult with
          | None => panic
          | Some hits =>
              let numOfBooks := elastic.TotalHits hits in
              match elastic.Value distinctAuthors with
              | None => panic
              | Some value =>
                  let '(buf, err) :=
                    json_Marshal_AggsRes
                      (mkAggsRes numOfBooks (math.int (math.Round value))) in
                  match err with
                  | Some err =>
                      mret ("", Some (ErrorsWrap err
                        "cannot create json result of aggregation query"))
                  | None => mret (buf, None)
                  end
              end
          end
      end
  end.

(** The tail shared by [store] and [search] (lines 320 to 331 and 375
    to 386): the error, or the activity append followed by the result. *)
Definition report_then_result (route method userId result : string)
  (err : option error) : Go unit :=
  match err with
  | Some err => Fprintf (WError err)
  | None =>
      (if bool_decide (userId ≠ "") then
         err ← writeToRedis userId route method;
         match err with
         | Some err => Fprintf (WError err)
         | None => mret tt
         end
       else mret tt);;
      Fprintf (WString result)
  end.

Definition store (req : Request) : Go unit :=
  err ← connectElasticSearch;
  match err with
  | Some err => Fprintf (WError err)
  | None =>
      let userId := getParamValue req "user_id" in
      '(result, err) ←
        (if bool_decide (Method req = "GET") then storeBook
         else
           let msg := "Unsupported request for /store " +:+ Method req in
           mret ("", Some (ErrorsNew msg)));
      report_then_result "store" (Method req) userId result err
  end.

(** The price range [search] reads from the [price_range] parameter
    (lines 347 to 366). *)
Definition search_priceRange (priceRange : string) : Range + error :=
  let r := strings.Split priceRange "-"%char in
  match r with
  | [r0; r1] =>
      match strconv.Atoi r0 with
      | inr err => inr (ErrorsWrap err "price range conversion failed")
      | inl from =>
          match strconv.Atoi r1 with
          | inr err => inr (ErrorsWrap err "price range conversion failed")
          | inl to => inl (mkRange from to)
          end
      end
  | _ => inl (mkRange (-1) (-1))
  end.

Definition search (req : Request) : Go unit :=
  err ← connectElasticSearch;
  match err with
  | Some err => Fprintf (WError err)
  | None =>
      let title := getParamValue req "title" in
      let authorName := getParamValue req "author_name" in
      let priceRange := getParamValue req "price_range" in
      let userId := getParamValue req "user_id" in
      match search_priceRange priceRange with
      | inr err => Fprintf (WError err)
      | inl range =>
          '(result, err) ←
            (if bool_decide (Method req = "GET")
             then searchBook title authorName range
             else
               let msg := "Unsupported request for /search " +:+ Method req in
               mret ("", Some (ErrorsNew msg)));
          report_then_result "search" (Method req) userId result err
      end
  end.

End Service.

(** ** Vocabulary of the statements *)

(** The range that stands for "no price filter". *)
Definition unset : Range := mkRange (-1) (-1).

(** A [price_range] that splits at [-] into exactly two integers. *)
Definition splits_into_two_integers (priceRange : string) : Prop :=
  exists a b x y, strings.Split priceRange "-" = [a; b]
                  /\ strconv.Atoi a = inl x /\ strconv.Atoi b = inl y.

(** From the highest score to the lowest. *)
Definition score_descending (x y : redis.ZEntry) : Prop := redis.Score y <= redis.Score x.

(** The member [writeToRedis] stores for an action. *)
Definition activity_label (route method : string) : string :=
  "route=" +:+ route +:+ ", method=" +:+ method.

(** The line [activity] writes for an entry. *)
Definition activity_line (zItem : redis.ZEntry) : Written :=
  WString (redis.Member zItem +:+ newline).

Definition is_redis_call (c : Call) : bool :=
  match c with
  | Redis_Ping | Redis_ZAdd _ _ | Redis_ZRevRangeWithScores _ _ _ => true
  | _ => false
  end.

(** A computation that talks to the document store only: whatever its
    outcome, it leaves the response, the logs and the clock alone and
    adds no call to Redis. *)
Definition store_only {A} (m : Go A) : Prop :=
  forall w, exists cs,
    Forall (fun c => is_redis_call c = false) cs
    /\ world_of (m w) = mkWorld (es w) (rds w) (now w) (response w) (calls w ++ cs).

(** The two ways the activity append fails: Redis does not answer the
    ping, or it answers and then refuses the command. *)
Definition append_fails_with (s : redis.Server) (e : error) : Prop :=
  (exists cause, redis.ping s = inr cause
                 /\ e = ErrorsWrap cause "cannot connect to Redis")
  \/ (exists pong cause, redis.ping s = inl pong
                         /\ redis.command_error s = Some cause
                         /\ e = ErrorsWrap cause "cannot set key in Redis").

(** Every member of every log is still there, and the empty user id
    still has no log. *)
Definition logs_kept (s s' : redis.Server) : Prop :=
  (forall key m, is_Some (redis.zset_of s key !! m) -> is_Some (redis.zset_of s' key !! m))
  /\ (redis.db s !! "" = None -> redis.db s' !! "" = None).

(** ** Sample worlds *)

Definition no_answer : error := LibError "no such host".

(** A document store that answers every search with [reply] and refuses
    everything else. *)
Definition sample_store (reply : elastic.SearchResult + error) : Elasticsearch :=
  mkElasticsearch None
    (fun _ _ _ _ => inr no_answer) (fun _ _ _ => inr no_answer)
    (fun _ _ _ => inr no_answer) (fun _ _ _ _ => inr no_answer)
    (fun _ => reply).

Definition sample_world (reply : elastic.SearchResult + error) (server : redis.Server)
  : World :=
  mkWorld (sample_store reply) server (time.mkTime 1540000000 7 0) [] [].

Definition empty_redis : redis.Server := redis.mkServer (inl "PONG") None ∅.

Definition redis_down : redis.Server := redis.mkServer (inr no_answer) None ∅.

(** User [u1] has asked for a book once, at nanosecond 5. *)
Definition logged_once : redis.Server :=
  redis.mkServer (inl "PONG") None
    (<["u1" := <[activity_label "book" "GET" := 5]> ∅]> ∅).

(** User [u1] has four entries. *)
Definition four_actions : redis.Server :=
  redis.mkServer (inl "PONG") None
    (<["u1" := <[activity_label "book" "PUT" := 100]>
                (<[activity_label "search" "GET" := 200]>
                   (<[activity_label "store" "GET" := 300]>
                      (<[activity_label "book" "GET" := 50]> ∅)))]> ∅).

(** Ten books; the estimate of the distinct authors is 3.5. *)
Definition sample_aggregation : elastic.SearchResult :=
  elastic.mkSearchResult
    (Some (elastic.mkSearchHits 10 []))
    (<["distinctAuthors" := elastic.RawValueMetric (Some (S754_finite false 7 (-1)))]> ∅).

(** Ten books by four authors. *)
Definition ten_books_four_authors : elastic.SearchResult :=
  elastic.mkSearchResult
    (Some (elastic.mkSearchHits 10 []))
    (<["distinctAuthors" := elastic.RawValueMetric (Some (S754_finite false 1 2))]> ∅).

Definition store_down : World := sample_world (inr no_answer) empty_redis.

Definition stats_redis_down : World := sample_world (inl sample_aggregation) redis_down.

Definition plain_get : Request := mkRequest "GET" ∅.

Definition get_as (userId : string) : Request :=
  mkRequest "GET" (<["user_id" := [userId]]> ∅).

Definition no_time : string -> string -> time.Time + error :=
  fun _ _ => inr (LibError "parsing time").

Definition summary_10_4 : string := (json_Marshal_AggsRes (mkAggsRes 10 4)).1.

(** ** Further vocabulary *)

#[global] Instance ZEntry_eq_dec : EqDecision redis.ZEntry.
Proof. solve_decision. Defined.

Definition is_store_operation (c : Call) : bool :=
  match c with
  | ES_Index _ _ _ _ | ES_Delete _ _ _ | ES_Get _ _ _ | ES_Update _ _ _ _
  | ES_Search _ => true
  | _ => false
  end.

(** The calls a request can make, in their order: the client, one store
    operation, the ping, the append. *)
Definition request_calls (op : Call) (userId : string) (z : redis.ZEntry) : list Call :=
  [ES_NewSimpleClient URL; op; Redis_Ping; Redis_ZAdd userId z].

(** The same world at another reading of the clock. *)
Definition at_time (t : time.Time) (w : World) : World :=
  mkWorld (es w) (rds w) t (response w) (calls w).

(** ** Further sample worlds *)

(** The client cannot be created. *)
Definition client_refused : World :=
  mkWorld (mkElasticsearch (Some no_answer)
             (fun _ _ _ _ => inr no_answer) (fun _ _ _ => inr no_answer)
             (fun _ _ _ => inr no_answer) (fun _ _ _ _ => inr no_answer)
             (fun _ => inr no_answer))
          empty_redis (time.mkTime 1540000000 7 0) [] [].

Definition stats_redis_up : World := sample_world (inl sample_aggregation) empty_redis.

Definition put_with_price (price : string) : Request :=
  mkRequest "PUT" (<["id" := ["1"]]> (<["price" := [price]]> ∅)).

Definition delete_1 : Request := mkRequest "DELETE" (<["id" := ["1"]]> ∅).

(** A page of two hits. *)
Definition two_hits : elastic.SearchResult :=
  elastic.mkSearchResult
    (Some (elastic.mkSearchHits 2 [elastic.mkSearchHit (Some "{a}");
                                   elastic.mkSearchHit (Some "{b}")]))
    ∅.

(** The cardinality metric is there, its value is not. *)
Definition metric_without_value : elastic.SearchResult :=
  elastic.mkSearchResult
    (Some (elastic.mkSearchHits 10 []))
    (<["distinctAuthors" := elastic.RawValueMetric None]> ∅).

(** The cardinality metric is there as a null. *)
Definition null_metric : elastic.SearchResult :=
  elastic.mkSearchResult
    (Some (elastic.mkSearchHits 10 []))
    (<["distinctAuthors" := elastic.RawNil]> ∅).

Definition put_title_only : Request :=
  mkRequest "PUT" (<["id" := ["1"]]> (<["title" := ["Dune"]]> ∅)).

Definition search_dune_10_20 : Request :=
  mkRequest "GET" (<["title" := ["Dune"]]> (<["price_range" := ["10-20"]]> ∅)).


(** * Properties *)

Ltac go_bind := unfold mbind, mret, Go_bind, Go_ret, bind, ret.

Ltac go_unfold :=
  unfold mbind, mret, Go_bind, Go_ret, bind, ret, panic, es_call, record,
         ask_es, ask_redis, set_redis, Fprintf, time_Now in *.

(** ** The filter composer *)

Lemma searchBook_query_unset_criteria :
  searchBook_query "" "" unset = elastic.Bool [].
Proof. reflexivity. Qed.

Lemma filter_all {A} (p : A -> bool) (l : list A) :
  (forall x, p x = true) -> List.filter p l = l.
Proof.
  intros Hp. induction l as [|x l IH]; simpl; [reflexivity|].
  rewrite Hp, IH. reflexivity.
Qed.

(** C1. With no title, no author and the unset price range, [searchBook]
    sends the store a conjunction without clauses; under the store's
    semantics that query matches every document, so filtering any
    collection by it keeps the whole collection. *)
Theorem searchBook_no_criteria_matches_all
  (text_matches : string -> string -> Book -> bool) (collection : list Book) (w : World) :
  calls (world_of (searchBook "" "" unset w))
    = (calls w ++ [ES_Search (searchBook_request (elastic.Bool []))])%list
  /\ (forall b, matches text_matches (searchBook_query "" "" unset) b = true)
  /\ List.filter (matches text_matches (searchBook_query "" "" unset)) collection
     = collection.
Proof.
  split; [|split].
  - unfold searchBook. rewrite searchBook_query_unset_criteria.
    unfold mbind, Go_bind, bind, es_call, record, ask_es; simpl.
    destruct (search_do (es w) _) as [sr|e]; simpl; [|reflexivity].
    destruct (elastic.Hits sr) as [hits|]; simpl; [|reflexivity].
    destruct (0 <? length (elastic.Hits_Hits hits))%nat; simpl; [|reflexivity].
    destruct (mapM elastic.Source (elastic.Hits_Hits hits)); reflexivity.
  - intros b. reflexivity.
  - apply filter_all. intros b. reflexivity.
Qed.

(** ** The price range of a search request *)

Lemma Split_no_sep (s : string) (sep : ascii) :
  Forall (fun piece => strings.ContainsRune piece sep = false) (strings.Split s sep).
Proof.
  induction s as [|c s IH]; simpl.
  - repeat constructor.
  - destruct (Ascii.eqb c sep) eqn:Hc.
    + constructor; [reflexivity | exact IH].
    + destruct (strings.Split s sep) as [|piece pieces].
      * repeat constructor. simpl. rewrite Hc. reflexivity.
      * inversion IH as [|? ? Hp Hps]; subst.
        constructor; [|exact Hps]. simpl. rewrite Hc, Hp. reflexivity.
Qed.

Lemma digits_nonneg (s : string) : forall acc n,
  0 <= acc -> strconv.digits acc s = Some n -> 0 <= n.
Proof.
  induction s as [|c s IH]; simpl; intros acc n Hacc H.
  - congruence.
  - unfold strconv.is_digit in H.
    destruct ((48 <=? Z.of_N (N_of_ascii c)) && (Z.of_N (N_of_ascii c) <=? 57)) eqn:Hd;
      [|discriminate].
    apply andb_prop in Hd as [H1 H2].
    apply Z.leb_le in H1. eapply IH; [|exact H]. lia.
Qed.

Lemma Atoi_unsigned_nonneg (s : string) (v : Z) :
  strings.ContainsRune s "-" = false -> strconv.Atoi s = inl v -> 0 <= v.
Proof.
  intros Hs H. unfold strconv.Atoi in H.
  destruct s as [|c s]; [discriminate|].
  simpl in Hs. apply orb_false_elim in Hs as [Hc _]. rewrite Hc in H.
  destruct (Ascii.eqb c "+").
  - destruct s as [|d s]; [discriminate|].
    destruct (strconv.digits 0 (String d s)) as [n|] eqn:Hn; [|discriminate].
    apply digits_nonneg in Hn; [|lia].
    destruct (_ && _) in H; congruence.
  - destruct (strconv.digits 0 (String c s)) as [n|] eqn:Hn; [|discriminate].
    apply digits_nonneg in Hn; [|lia].
    destruct (_ && _) in H; congruence.
Qed.

Lemma search_priceRange_parsed_nonneg (s : string) (r : Range) :
  length (strings.Split s "-") = 2%nat -> search_priceRange s = inl r ->
  0 <= From r /\ 0 <= To r.
Proof.
  intros Hlen H. unfold search_priceRange in H.
  pose proof (Split_no_sep s "-") as Hno.
  destruct (strings.Split s "-") as [|a [|b [|c l]]]; try discriminate.
  inversion Hno as [|? ? Ha Hrest]; subst. inversion Hrest as [|? ? Hb _]; subst.
  destruct (strconv.Atoi a) as [x|] eqn:Hx; [|discriminate].
  destruct (strconv.Atoi b) as [y|] eqn:Hy; [|discriminate].
  inversion H; subst; simpl.
  split; eauto using Atoi_unsigned_nonneg.
Qed.

(** C2, as stated, fails: [a-b] does not split into two integers, yet it
    is not read as the unset range; the request ends with a conversion
    error. *)
Lemma price_range_a_b_not_normalized :
  ~ splits_into_two_integers "a-b"
  /\ search_priceRange "a-b" <> inl unset
  /\ search_priceRange "a-b"
     = inr (ErrorsWrap (NumError "Atoi" "a" strconv.ErrSyntax)
                       "price range conversion failed").
Proof.
  split; [|split].
  - intros (a & b & x & y & Hs & Ha & Hb).
    vm_compute in Hs. inversion Hs; subst. vm_compute in Ha. discriminate.
  - vm_compute. discriminate.
  - reflexivity.
Qed.

(** C2, amended.  The unset range [(-1, -1)] puts no range clause on
    [price] into the query; a [price_range] that does not split at [-]
    into exactly two parts is read as the unset range; one that splits
    into two parts of which one is not an integer ends the request with
    the error [price range conversion failed], which [search] writes
    without calling the store's search; and a range that was parsed
    from two parts is never the unset one. *)
Theorem unset_price_range_is_no_filter (title authorName priceRange : string) :
  existsb (elastic.is_range_on "price")
          (elastic.must_of (searchBook_query title authorName unset)) = false
  /\ (length (strings.Split priceRange "-") <> 2%nat ->
      search_priceRange priceRange = inl unset)
  /\ (forall a b, strings.Split priceRange "-" = [a; b] ->
      (exists e, strconv.Atoi a = inr e) \/ (exists e, strconv.Atoi b = inr e) ->
      exists e, search_priceRange priceRange
                = inr (ErrorsWrap e "price range conversion failed"))
  /\ (forall r, length (strings.Split priceRange "-") = 2%nat ->
      search_priceRange priceRange = inl r -> r <> unset)
  /\ (forall req w e,
      getParamValue req "price_range" = priceRange ->
      search_priceRange priceRange = inr e ->
      new_simple_client (es w) = None ->
      search req w = Returned tt (wrote (WError e) (called (ES_NewSimpleClient URL) w))).
Proof.
  split; [|split; [|split; [|split]]].
  - unfold searchBook_query, unset; simpl.
    destruct (bool_decide (title ≠ "")), (bool_decide (authorName ≠ "")); reflexivity.
  - intros Hlen. unfold search_priceRange.
    destruct (strings.Split priceRange "-") as [|a [|b [|c l]]]; simpl in Hlen;
      try reflexivity. lia.
  - intros a b Hs Hbad. unfold search_priceRange. rewrite Hs.
    destruct (strconv.Atoi a) as [x|ea]; [|eauto].
    destruct (strconv.Atoi b) as [y|eb]; [|eauto].
    destruct Hbad as [[e He]|[e He]]; discriminate.
  - intros r Hlen Hr ->.
    apply search_priceRange_parsed_nonneg in Hr as [Hfrom _]; [|exact Hlen].
    simpl in Hfrom. lia.
  - intros req w e Hparam Hbad Hclient.
    unfold search, connectElasticSearch. go_unfold. simpl.
    rewrite Hclient, Hparam, Hbad. reflexivity.
Qed.

Lemma unset_price_range_is_no_filter_witness :
  search_priceRange "1-2-3" = inl unset.
Proof.
  apply (proj1 (proj2 (unset_price_range_is_no_filter "" "" "1-2-3"))).
  vm_compute. lia.
Defined.

(** ** Rounding of the cardinality estimate *)

Lemma Qfloor_plus_half_Z (n : Z) : Qfloor (inject_Z n + (1 # 2)) = n.
Proof.
  unfold Qfloor, Qplus, inject_Z; simpl.
  rewrite Z.mul_1_r.
  replace (n * 2 + 1) with (1 + n * 2) by lia.
  rewrite Z.div_add by lia. reflexivity.
Qed.

Lemma Qfloor_plus_half_dyadic (m : Z) (k : Z) :
  0 < k ->
  Qfloor (Qmake m (Z.to_pos (2 ^ k)) + (1 # 2)) = (m + 2 ^ (k - 1)) / 2 ^ k.
Proof.
  intros Hk.
  assert (Hpow : 0 < 2 ^ k) by (apply Z.pow_pos_nonneg; lia).
  assert (H2 : 2 ^ k = 2 * 2 ^ (k - 1)).
  { rewrite <- Z.pow_succ_r by lia. f_equal. lia. }
  unfold Qfloor, Qplus; simpl.
  rewrite Pos2Z.inj_mul, Z2Pos.id by lia.
  replace (m * 2 + 1 * 2 ^ k) with ((m + 2 ^ (k - 1)) * 2) by lia.
  rewrite Z.div_mul_cancel_r by lia. reflexivity.
Qed.

Lemma round_half_away_pos (n : positive) (d : positive) :
  math.round_half_away_from_zero (Qmake (Z.pos n) d)
  = Qfloor (Qmake (Z.pos n) d + (1 # 2)).
Proof. reflexivity. Qed.

Lemma round_half_away_neg (n : positive) (d : positive) :
  math.round_half_away_from_zero (Qopp (Qmake (Z.pos n) d))
  = - Qfloor (Qmake (Z.pos n) d + (1 # 2)).
Proof. reflexivity. Qed.

(** [int(math.Round(x))] is the mathematical rounding of the number [x]
    denotes, whenever that integer fits an [int]. *)
Lemma int_Round_correct (x : math.float64) (q : Q) :
  math.value x = Some q ->
  strconv.minInt <= math.round_half_away_from_zero q <= strconv.maxInt ->
  math.int (math.Round x) = math.round_half_away_from_zero q.
Proof.
  destruct x as [s|s| |s m e]; simpl; try discriminate.
  - intros [= <-] _. reflexivity.
  - destruct (0 <=? e) eqn:He.
    + apply Z.leb_le in He.
      assert (Hpow : 0 < 2 ^ e) by (apply Z.pow_pos_nonneg; lia).
      destruct (Z.pos m * 2 ^ e) as [|n|n] eqn:Hn; try lia.
      intros [= <-] Hrange. unfold math.int. 
      replace (0 <=? e) with true by (symmetry; apply Z.leb_le; exact He).
      rewrite Hn.
      assert (Hr : Qfloor (inject_Z (Z.pos n) + (1 # 2)) = Z.pos n)
        by apply Qfloor_plus_half_Z.
      destruct s.
      * unfold inject_Z in *. rewrite round_half_away_neg in *. rewrite Hr in *.
        destruct (_ && _) eqn:Hb; [reflexivity|].
        apply andb_false_iff in Hb as [Hb|Hb]; apply Z.leb_gt in Hb; lia.
      * unfold inject_Z in *. rewrite round_half_away_pos in *. rewrite Hr in *.
        destruct (_ && _) eqn:Hb; [reflexivity|].
        apply andb_false_iff in Hb as [Hb|Hb]; apply Z.leb_gt in Hb; lia.
    + apply Z.leb_gt in He.
      assert (Hpow : 0 < 2 ^ (- e)) by (apply Z.pow_pos_nonneg; lia).
      assert (Hhalf : 0 < 2 ^ (- e - 1)) by (apply Z.pow_pos_nonneg; lia).
      pose proof (Qfloor_plus_half_dyadic (Z.pos m) (- e) ltac:(lia)) as Hr.
      assert (Hn : 0 <= (Z.pos m + 2 ^ (- e - 1)) / 2 ^ (- e))
        by (apply Z.div_pos; lia).
      intros [= <-] Hrange.
      destruct s.
      * rewrite round_half_away_neg in *. rewrite Hr in *.
        destruct ((Z.pos m + 2 ^ (- e - 1)) / 2 ^ (- e)) as [|n|n]; try lia.
        -- reflexivity.
        -- unfold math.int. change (0 <=? 0) with true. cbv iota.
           rewrite Z.pow_0_r, Z.mul_1_r.
           destruct (_ && _) eqn:Hb; [reflexivity|].
           apply andb_false_iff in Hb as [Hb|Hb]; apply Z.leb_gt in Hb; lia.
      * rewrite round_half_away_pos in *. rewrite Hr in *.
        destruct ((Z.pos m + 2 ^ (- e - 1)) / 2 ^ (- e)) as [|n|n]; try lia.
        -- reflexivity.
        -- unfold math.int. change (0 <=? 0) with true. cbv iota.
           rewrite Z.pow_0_r, Z.mul_1_r.
           destruct (_ && _) eqn:Hb; [reflexivity|].
           apply andb_false_iff in Hb as [Hb|Hb]; apply Z.leb_gt in Hb; lia.
Qed.

Lemma round_half_away_nonneg (q : Q) :
  (0 <= q)%Q -> 0 <= math.round_half_away_from_zero q.
Proof.
  intros Hq. unfold math.round_half_away_from_zero.
  apply Qle_bool_iff in Hq. rewrite Hq.
  apply Qle_bool_iff in Hq.
  change 0 with (Qfloor 0). apply Qfloor_resp_le.
  apply Qle_trans with q; [exact Hq|].
  rewrite <- (Qplus_0_r q) at 1. apply Qplus_le_r. discriminate.
Qed.

(** ** The aggregation summarizer *)

Lemma json_Marshal_AggsRes_nonempty (a : AggsRes) : (json_Marshal_AggsRes a).1 <> "".
Proof. unfold json_Marshal_AggsRes. simpl. discriminate. Qed.

Lemma storeBook_absent (w : World) (searchResult : elastic.SearchResult) :
  search_do (es w) storeBook_request = inl searchResult ->
  elastic.Cardinality (elastic.Aggregations searchResult) "distinctAuthors" = None ->
  storeBook w = Returned ("", None) (called (ES_Search storeBook_request) w).
Proof.
  intros Hreply Habsent. unfold storeBook. go_unfold. simpl.
  rewrite Hreply, Habsent. reflexivity.
Qed.

Lemma storeBook_present (w : World) (searchResult : elastic.SearchResult)
  (hits : elastic.SearchHits) (estimate : math.float64) :
  search_do (es w) storeBook_request = inl searchResult ->
  elastic.Cardinality (elastic.Aggregations searchResult) "distinctAuthors"
    = Some (elastic.mkValueMetric (Some estimate)) ->
  elastic.Hits searchResult = Some hits ->
  storeBook w
  = Returned ((json_Marshal_AggsRes
                 (mkAggsRes (elastic.TotalHits hits) (math.int (math.Round estimate)))).1,
              None)
             (called (ES_Search storeBook_request) w).
Proof.
  intros Hreply Hfound Hhits. unfold storeBook. go_unfold. simpl.
  rewrite Hreply, Hfound, Hhits. reflexivity.
Qed.

Lemma storeBook_empty_result (w w' : World) (searchResult : elastic.SearchResult) :
  search_do (es w) storeBook_request = inl searchResult ->
  storeBook w = Returned ("", None) w' ->
  elastic.Cardinality (elastic.Aggregations searchResult) "distinctAuthors" = None.
Proof.
  intros Hreply. unfold storeBook. go_unfold. simpl. rewrite Hreply.
  destruct (elastic.Cardinality _ _) as [d|]; [|reflexivity].
  destruct (elastic.Hits searchResult) as [hits|]; [|discriminate].
  destruct (elastic.Value d) as [v|]; discriminate.
Qed.

(** C3. When the aggregation result carries the cardinality estimate, a
    finite non-negative number whose rounding fits an [int], the summary
    [storeBook] returns holds as its distinct-author count that number
    rounded to the nearest integer, halves away from zero, and the count
    is not negative. *)
Theorem distinct_authors_is_rounded_estimate
  (w : World) (searchResult : elastic.SearchResult) (hits : elastic.SearchHits)
  (estimate : math.float64) (q : Q) :
  search_do (es w) storeBook_request = inl searchResult ->
  elastic.Cardinality (elastic.Aggregations searchResult) "distinctAuthors"
    = Some (elastic.mkValueMetric (Some estimate)) ->
  elastic.Hits searchResult = Some hits ->
  math.value estimate = Some q ->
  (0 <= q)%Q ->
  math.round_half_away_from_zero q <= strconv.maxInt ->
  0 <= math.round_half_away_from_zero q
  /\ storeBook w
     = Returned ((json_Marshal_AggsRes
                    (mkAggsRes (elastic.TotalHits hits)
                               (math.round_half_away_from_zero q))).1, None)
                (called (ES_Search storeBook_request) w).
Proof.
  intros Hreply Hfound Hhits Hvalue Hq Hfit.
  pose proof (round_half_away_nonneg q Hq) as Hpos.
  split; [exact Hpos|].
  rewrite (storeBook_present w searchResult hits estimate Hreply Hfound Hhits).
  rewrite (int_Round_correct estimate q Hvalue); [reflexivity|].
  unfold strconv.minInt, strconv.intSize in *. lia.
Qed.

Lemma distinct_authors_is_rounded_estimate_witness :
  0 <= math.round_half_away_from_zero (7 # 2)
  /\ storeBook (sample_world (inl sample_aggregation) empty_redis)
     = Returned ((json_Marshal_AggsRes (mkAggsRes 10 (math.round_half_away_from_zero (7 # 2)))).1, None)
                (called (ES_Search storeBook_request)
                        (sample_world (inl sample_aggregation) empty_redis)).
Proof.
  apply (distinct_authors_is_rounded_estimate
           (sample_world (inl sample_aggregation) empty_redis)
           sample_aggregation (elastic.mkSearchHits 10 []) (S754_finite false 7 (-1)) (7 # 2)).
  - reflexivity.
  - reflexivity.
  - reflexivity.
  - reflexivity.
  - vm_compute. discriminate.
  - vm_compute. discriminate.
Defined.

(** What [storeBook] does with the metric it looks up: the empty result
    without error exactly when [Cardinality] reports the metric as not
    found, and the marshalled summary, never the empty result, when the
    metric is found with its value. *)
Lemma summary_iff_metric_found (w : World) (searchResult : elastic.SearchResult) :
  search_do (es w) storeBook_request = inl searchResult ->
  ((exists w', storeBook w = Returned ("", None) w')
   <-> elastic.Cardinality (elastic.Aggregations searchResult) "distinctAuthors" = None)
  /\ (forall estimate hits,
        elastic.Cardinality (elastic.Aggregations searchResult) "distinctAuthors"
          = Some (elastic.mkValueMetric (Some estimate)) ->
        elastic.Hits searchResult = Some hits ->
        exists summary w',
          storeBook w = Returned (summary, None) w'
          /\ summary <> ""
          /\ summary = (json_Marshal_AggsRes
                          (mkAggsRes (elastic.TotalHits hits)
                                     (math.int (math.Round estimate)))).1).
Proof.
  intros Hreply. split; [split|].
  - intros [w' H]. exact (storeBook_empty_result w w' searchResult Hreply H).
  - intros Habsent. eexists. exact (storeBook_absent w searchResult Hreply Habsent).
  - intros estimate hits Hfound Hhits.
    eexists _, _. split; [exact (storeBook_present w _ _ _ Hreply Hfound Hhits)|].
    split; [apply json_Marshal_AggsRes_nonempty | reflexivity].
Qed.

(** C4: the code at an aggregation result whose cardinality metric is
    there while its value is absent (the [value] field missing, or the
    metric null).  [Cardinality] reports the metric as found, so
    [storeBook] passes the test of [found], dereferences the missing
    value and panics: it does not return the empty result that stands
    for "no summary", and [store] ends in that panic with nothing
    written. *)
Theorem absent_estimate_value_panics :
  let without_value := sample_world (inl metric_without_value) empty_redis in
  let null := sample_world (inl null_metric) empty_redis in
  elastic.Cardinality (elastic.Aggregations metric_without_value) "distinctAuthors"
    = Some (elastic.mkValueMetric None)
  /\ elastic.Cardinality (elastic.Aggregations null_metric) "distinctAuthors"
     = Some (elastic.mkValueMetric None)
  /\ storeBook without_value = Panicked (called (ES_Search storeBook_request) without_value)
  /\ storeBook null = Panicked (called (ES_Search storeBook_request) null)
  /\ (forall w', storeBook without_value <> Returned ("", None) w')
  /\ (forall w', storeBook null <> Returned ("", None) w')
  /\ (exists w', store plain_get without_value = Panicked w' /\ response w' = [])
  /\ (exists w', store plain_get null = Panicked w' /\ response w' = []).
Proof.
  intros without_value null.
  split; [reflexivity|]. split; [reflexivity|].
  split; [reflexivity|]. split; [reflexivity|].
  split; [intros w'; discriminate|]. split; [intros w'; discriminate|]. split.
  - exists (world_of (store plain_get without_value)). split; vm_compute; reflexivity.
  - exists (world_of (store plain_get null)). split; vm_compute; reflexivity.
Qed.

(** Scenario B: statistics on ten books by four authors. *)
Example statistics_ten_books_four_authors :
  storeBook (sample_world (inl ten_books_four_authors) empty_redis)
  = Returned (summary_10_4, None)
      (called (ES_Search storeBook_request)
              (sample_world (inl ten_books_four_authors) empty_redis)).
Proof. reflexivity. Qed.

(** ** The sorted sets of the activity log *)

#[local] Instance score_descending_trans : Transitive score_descending.
Proof. unfold score_descending. intros x y z Hxy Hyz. lia. Qed.

#[local] Instance rev_before_total : Total redis.rev_before.
Proof.
  intros x y. unfold redis.rev_before.
  destruct (Z.lt_trichotomy (redis.Score x) (redis.Score y)) as [H|[H|H]].
  - right. left. exact H.
  - destruct (String.leb_total (redis.Member x) (redis.Member y)) as [Hm|Hm].
    + right. right. split; [symmetry; exact H | exact Hm].
    + left. right. split; [exact H | exact Hm].
  - left. left. exact H.
Qed.

Lemma rev_before_score (x y : redis.ZEntry) : redis.rev_before x y -> score_descending x y.
Proof. unfold redis.rev_before, score_descending. intros [H|[H _]]; lia. Qed.

Lemma Sorted_weaken {A} (R R' : relation A) (l : list A) :
  (forall x y, R x y -> R' x y) -> Sorted R l -> Sorted R' l.
Proof.
  intros Himp. induction 1 as [|x l Hl IH Hhd]; constructor; [exact IH|].
  destruct Hhd; constructor; auto.
Qed.

Lemma rank_range_top3 {A} (l : list A) : redis.rank_range l 0 2 = take 3 l.
Proof.
  unfold redis.rank_range. cbv beta zeta.
  repeat progress (change (0 <? 0) with false; change (2 <? 0) with false; cbv iota).
  rewrite orb_false_l, drop_0.
  destruct (Z.of_nat (length l) <=? 0) eqn:H0.
  - apply Z.leb_le in H0. destruct l; [reflexivity | simpl in H0; lia].
  - apply Z.leb_gt in H0.
    destruct (Z.of_nat (length l) <=? 2) eqn:H2.
    + apply Z.leb_le in H2.
      rewrite !take_ge by lia. reflexivity.
    + reflexivity.
Qed.

Section Zrevrange.

Variables (s : redis.Server) (key : string).

Lemma zrevrange_take :
  redis.zrevrange key 0 2 s = take 3 (redis.ranked (redis.zset_of s key)).
Proof. apply rank_range_top3. Qed.

Lemma ranked_Permutation :
  redis.ranked (redis.zset_of s key) ≡ₚ redis.entries (redis.zset_of s key).
Proof. apply merge_sort_Permutation. Qed.

Lemma ranked_sorted :
  StronglySorted score_descending (redis.ranked (redis.zset_of s key)).
Proof.
  apply Sorted_StronglySorted; [apply _|].
  apply Sorted_weaken with redis.rev_before; [apply rev_before_score|].
  apply Sorted_merge_sort. apply _.
Qed.

Lemma length_entries :
  length (redis.entries (redis.zset_of s key)) = size (redis.zset_of s key).
Proof. unfold redis.entries. rewrite length_fmap. apply length_map_to_list. Qed.

Lemma elem_of_entries (z : redis.ZEntry) :
  z ∈ redis.entries (redis.zset_of s key)
  <-> redis.zset_of s key !! redis.Member z = Some (redis.Score z).
Proof.
  unfold redis.entries. rewrite list_elem_of_fmap. split.
  - intros ([m sc] & -> & Hin). simpl. apply elem_of_map_to_list. exact Hin.
  - intros H. exists (redis.Member z, redis.Score z). split.
    + destruct z; reflexivity.
    + apply elem_of_map_to_list. exact H.
Qed.

Lemma zrevrange_length : (length (redis.zrevrange key 0 2 s) <= 3)%nat.
Proof. rewrite zrevrange_take, length_take. lia. Qed.

Lemma zrevrange_sorted : StronglySorted score_descending (redis.zrevrange key 0 2 s).
Proof.
  rewrite zrevrange_take.
  apply StronglySorted_app_1_l with (drop 3 (redis.ranked (redis.zset_of s key))).
  rewrite take_drop. apply ranked_sorted.
Qed.

Lemma zrevrange_from_log (z : redis.ZEntry) :
  z ∈ redis.zrevrange key 0 2 s ->
  redis.zset_of s key !! redis.Member z = Some (redis.Score z).
Proof.
  rewrite zrevrange_take. intros Hin.
  apply elem_of_entries. rewrite <- ranked_Permutation.
  apply (subseteq_take 3). exact Hin.
Qed.

Lemma zrevrange_all_when_short :
  (size (redis.zset_of s key) <= 3)%nat ->
  redis.zrevrange key 0 2 s ≡ₚ redis.entries (redis.zset_of s key).
Proof.
  intros Hsize. rewrite zrevrange_take, take_ge.
  - apply ranked_Permutation.
  - rewrite ranked_Permutation, length_entries. exact Hsize.
Qed.

Lemma zrevrange_highest (z z' : redis.ZEntry) :
  z ∈ redis.zrevrange key 0 2 s ->
  z' ∈ redis.entries (redis.zset_of s key) ->
  z' ∉ redis.zrevrange key 0 2 s ->
  redis.Score z' <= redis.Score z.
Proof.
  rewrite zrevrange_take. intros Hz Hz' Hout.
  rewrite <- ranked_Permutation,
          <- (take_drop 3 (redis.ranked (redis.zset_of s key))) in Hz'.
  apply elem_of_app in Hz' as [Hz'|Hz']; [contradiction|].
  pose proof ranked_sorted as Hs.
  rewrite <- (take_drop 3 (redis.ranked (redis.zset_of s key))) in Hs.
  exact (StronglySorted_app_1_elem_of _ _ _ _ _ Hs Hz Hz').
Qed.

Lemma zrevrange_empty :
  redis.zset_of s key = ∅ -> redis.zrevrange key 0 2 s = [].
Proof. intros Hempty. unfold redis.zrevrange. rewrite Hempty. reflexivity. Qed.

End Zrevrange.

(** ** The activity recorder *)

Lemma writeToRedis_eval (userID route method : string) (w : World) :
  writeToRedis userID route method w
  = match redis.ping (rds w) with
    | inr err =>
        Returned (Some (ErrorsWrap err "cannot connect to Redis")) (called Redis_Ping w)
    | inl _ =>
        let z := redis.mkZ (time.Nanosecond (now w)) (activity_label route method) in
        let w1 := called (Redis_ZAdd userID z) (called Redis_Ping w) in
        match redis.command_error (rds w) with
        | Some err => Returned (Some (ErrorsWrap err "cannot set key in Redis")) w1
        | None => Returned None (with_redis (redis.zadd userID z (rds w)).2 w1)
        end
    end.
Proof.
  destruct w as [store [pong failure logs] t written made].
  unfold writeToRedis, connectRedis, redis_Ping, redis_ZAdd. go_unfold. simpl.
  destruct pong as [pong|err]; [|reflexivity]. simpl.
  destruct failure; reflexivity.
Qed.

Lemma zset_of_zadd_same (key : string) (z : redis.ZEntry) (s : redis.Server) :
  redis.zset_of (redis.zadd key z s).2 key
  = <[redis.Member z := redis.Score z]> (redis.zset_of s key).
Proof. unfold redis.zset_of, redis.zadd; simpl. rewrite lookup_insert_eq. reflexivity. Qed.

Lemma zset_of_zadd_other (key other : string) (z : redis.ZEntry) (s : redis.Server) :
  other <> key -> redis.zset_of (redis.zadd key z s).2 other = redis.zset_of s other.
Proof.
  intros Hne. unfold redis.zset_of, redis.zadd; simpl.
  rewrite lookup_insert_ne by congruence. reflexivity.
Qed.

Lemma writeToRedis_success_log (userID route method : string) (w w' : World) :
  writeToRedis userID route method w = Returned None w' ->
  redis.zset_of (rds w') userID
  = <[activity_label route method := time.Nanosecond (now w)]> (redis.zset_of (rds w) userID)
  /\ forall other, other <> userID ->
       redis.zset_of (rds w') other = redis.zset_of (rds w) other.
Proof.
  rewrite writeToRedis_eval.
  destruct (redis.ping (rds w)) as [pong|err]; [|discriminate]. cbv zeta.
  destruct (redis.command_error (rds w)); [discriminate|].
  intros H. inversion H; subst; clear H.
  unfold redis.zset_of; simpl. split.
  - rewrite lookup_insert_eq. reflexivity.
  - intros other Hne. rewrite lookup_insert_ne by congruence. reflexivity.
Qed.

(** C6, as stated, fails: user [u1] has one entry, for [GET] on [book]
    with score 5; recording [GET] on [book] again, at nanosecond 7,
    succeeds and leaves the log with one entry, whose score is now 7. *)
Lemma repeated_action_does_not_grow_log :
  let w := sample_world (inr no_answer) logged_once in
  exists w', writeToRedis "u1" "book" "GET" w = Returned None w'
    /\ size (redis.zset_of (rds w) "u1") = 1%nat
    /\ size (redis.zset_of (rds w') "u1") = 1%nat
    /\ redis.zset_of (rds w) "u1" !! activity_label "book" "GET" = Some 5
    /\ redis.zset_of (rds w') "u1" !! activity_label "book" "GET" = Some 7.
Proof.
  intros w. exists (world_of (writeToRedis "u1" "book" "GET" w)).
  vm_compute. repeat split; reflexivity.
Qed.

(** C6, amended.  A successful append puts the label of the action, with
    the nanosecond reading as its score, into the user's sorted set: a
    label not yet in the log makes the log one entry longer and leaves
    every other entry as it was; a label already in the log keeps the
    length and replaces that entry's score.  No member is ever removed,
    so the log never shrinks, and the logs of other users do not change. *)
Theorem append_grows_log_by_new_label
  (userID route method : string) (w w' : World) :
  writeToRedis userID route method w = Returned None w' ->
  let label := activity_label route method in
  let old := redis.zset_of (rds w) userID in
  let new := redis.zset_of (rds w') userID in
  new = <[label := time.Nanosecond (now w)]> old
  /\ (old !! label = None ->
      size new = S (size old) /\ forall m sc, old !! m = Some sc -> new !! m = Some sc)
  /\ (is_Some (old !! label) ->
      size new = size old
      /\ forall m sc, m <> label -> old !! m = Some sc -> new !! m = Some sc)
  /\ (forall m, is_Some (old !! m) -> is_Some (new !! m))
  /\ (size old <= size new)%nat
  /\ (forall other, other <> userID ->
      redis.zset_of (rds w') other = redis.zset_of (rds w) other).
Proof.
  intros Hrun label old new.
  destruct (writeToRedis_success_log _ _ _ _ _ Hrun) as [Hsame Hother].
  fold label in Hsame. fold old in Hsame. fold new in Hsame. rewrite Hsame. clear Hsame.
  split; [reflexivity|]. split; [|split; [|split; [|split]]].
  - intros Hnew. split; [apply map_size_insert_None; exact Hnew|].
    intros m sc Hm. rewrite lookup_insert_ne; [exact Hm|]. congruence.
  - intros Hold. split; [apply map_size_insert_Some; exact Hold|].
    intros m sc Hne Hm. rewrite lookup_insert_ne; [exact Hm|]. congruence.
  - intros m Hm. rewrite lookup_insert. case_decide; [eauto|exact Hm].
  - rewrite map_size_insert. destruct (old !! label); unfold id; lia.
  - exact Hother.
Qed.

Lemma append_grows_log_by_new_label_witness :
  redis.zset_of
    (rds (world_of (writeToRedis "u1" "book" "GET" (sample_world (inr no_answer) empty_redis))))
    "u1"
  = <[activity_label "book" "GET" := 7]> (redis.zset_of empty_redis "u1").
Proof.
  apply (append_grows_log_by_new_label "u1" "book" "GET"
           (sample_world (inr no_answer) empty_redis)
           (world_of (writeToRedis "u1" "book" "GET" (sample_world (inr no_answer) empty_redis)))).
  reflexivity.
Defined.

(** ** The activity reader *)

Lemma for_range_Fprintf {A} (line : A -> Written) (l : list A) (w : World) :
  for_range l (fun x => Fprintf (line x)) w
  = Returned tt (mkWorld (es w) (rds w) (now w) (response w ++ (line <$> l)) (calls w)).
Proof.
  revert w. induction l as [|x l IH]; intros w; simpl.
  - go_unfold. rewrite app_nil_r. destruct w; reflexivity.
  - go_unfold. unfold wrote. rewrite IH. simpl. rewrite <- app_assoc. reflexivity.
Qed.

Lemma activity_eval (req : Request) (w : World) (pong : string) :
  redis.ping (rds w) = inl pong ->
  redis.command_error (rds w) = None ->
  Method req = "GET" ->
  getParamValue req "user_id" <> "" ->
  activity req w
  = Returned tt
      (mkWorld (es w) (rds w) (now w)
         (response w ++ (activity_line <$> redis.zrevrange (getParamValue req "user_id") 0 2 (rds w)))
         (calls w ++ [Redis_Ping; Redis_ZRevRangeWithScores (getParamValue req "user_id") 0 2])).
Proof.
  intros Hping Hcmd Hget Huser.
  unfold activity, connectRedis, redis_Ping, redis_ZRevRangeWithScores.
  unfold mbind, mret, Go_bind, Go_ret, bind, ret, record, ask_redis. simpl.
  rewrite Hping. simpl. rewrite Hget. simpl.
  rewrite bool_decide_true by exact Huser. simpl. rewrite Hcmd. simpl.
  fold activity_line. rewrite for_range_Fprintf. simpl.
  rewrite <- app_assoc. reflexivity.
Qed.

Lemma activity_no_user (req : Request) (w : World) (pong : string) :
  redis.ping (rds w) = inl pong ->
  Method req = "GET" ->
  getParamValue req "user_id" = "" ->
  activity req w = Returned tt (called Redis_Ping w).
Proof.
  intros Hping Hget Huser.
  unfold activity, connectRedis, redis_Ping. go_unfold. simpl.
  rewrite Hping. simpl. rewrite Hget, Huser. reflexivity.
Qed.

(** C5. For a [GET] on [/activity] with Redis answering, the lines
    written are the members of at most three entries of the user's log,
    from the highest score to the lowest; they are entries of the log
    and no entry left out has a higher score than one returned; a log
    of three entries or fewer is returned whole; an empty log, or a user
    the store does not know, gives no line and no error.  The logs are
    left as they were. *)
Theorem activity_returns_top_three (req : Request) (w : World) (pong : string) :
  redis.ping (rds w) = inl pong ->
  redis.command_error (rds w) = None ->
  Method req = "GET" ->
  redis.db (rds w) !! "" = None ->
  let userId := getParamValue req "user_id" in
  let log := redis.zset_of (rds w) userId in
  exists (resultSet : list redis.ZEntry) (w' : World),
    activity req w = Returned tt w'
    /\ response w' = (response w ++ (activity_line <$> resultSet))%list
    /\ rds w' = rds w
    /\ (length resultSet <= 3)%nat
    /\ StronglySorted score_descending resultSet
    /\ (forall z, z ∈ resultSet -> log !! redis.Member z = Some (redis.Score z))
    /\ (forall z z', z ∈ resultSet -> z' ∈ redis.entries log -> z' ∉ resultSet ->
          redis.Score z' <= redis.Score z)
    /\ ((size log <= 3)%nat -> resultSet ≡ₚ redis.entries log)
    /\ (log = ∅ -> resultSet = []).
Proof.
  intros Hping Hcmd Hget Hnokey userId log.
  exists (redis.zrevrange userId 0 2 (rds w)).
  destruct (decide (userId = "")) as [Hempty|Huser].
  - assert (Hlog : log = ∅).
    { subst log. unfold redis.zset_of. rewrite Hempty, Hnokey. reflexivity. }
    pose proof (zrevrange_empty (rds w) userId Hlog) as Hnone.
    exists (called Redis_Ping w).
    rewrite (activity_no_user req w pong Hping Hget Hempty), Hnone.
    split; [reflexivity|]. split; [simpl; rewrite app_nil_r; reflexivity|].
    split; [reflexivity|]. split; [simpl; lia|]. split; [constructor|].
    split; [intros z Hz; inversion Hz|]. split; [intros z z' Hz; inversion Hz|].
    split; [|reflexivity].
    intros _. rewrite Hlog. unfold redis.entries. rewrite map_to_list_empty. reflexivity.
  - eexists. split; [apply (activity_eval req w pong Hping Hcmd Hget Huser)|].
    split; [reflexivity|]. split; [reflexivity|].
    split; [apply zrevrange_length|]. split; [apply zrevrange_sorted|].
    split; [apply zrevrange_from_log|]. split; [apply zrevrange_highest|].
    split; [apply zrevrange_all_when_short | apply zrevrange_empty].
Qed.

Lemma activity_returns_top_three_witness :
  exists (resultSet : list redis.ZEntry) (w' : World),
    activity (get_as "u1") (sample_world (inr no_answer) four_actions)
    = Returned tt w'
    /\ response w' = ([] ++ (activity_line <$> resultSet))%list
    /\ rds w' = four_actions
    /\ (length resultSet <= 3)%nat
    /\ StronglySorted score_descending resultSet
    /\ (forall z, z ∈ resultSet ->
          redis.zset_of four_actions "u1" !! redis.Member z = Some (redis.Score z))
    /\ (forall z z', z ∈ resultSet -> z' ∈ redis.entries (redis.zset_of four_actions "u1") ->
          z' ∉ resultSet -> redis.Score z' <= redis.Score z)
    /\ ((size (redis.zset_of four_actions "u1") <= 3)%nat ->
          resultSet ≡ₚ redis.entries (redis.zset_of four_actions "u1"))
    /\ (redis.zset_of four_actions "u1" = ∅ -> resultSet = []).
Proof.
  apply (activity_returns_top_three (get_as "u1")
           (sample_world (inr no_answer) four_actions) "PONG").
  - reflexivity.
  - reflexivity.
  - reflexivity.
  - reflexivity.
Defined.

Example activity_three_most_recent :
  response (world_of (activity (get_as "u1")
                               (sample_world (inr no_answer) four_actions)))
  = [WString (activity_label "store" "GET" +:+ newline);
     WString (activity_label "search" "GET" +:+ newline);
     WString (activity_label "book" "PUT" +:+ newline)].
Proof. vm_compute. reflexivity. Qed.

(** ** What the catalog operations touch *)

Ltac store_only_step :=
  match goal with
  | |- context [match ?x with _ => _ end] => destruct x; simpl
  | |- context [if ?x then _ else _] => destruct x; simpl
  end.

Ltac store_only_close :=
  first
    [ eexists; split; [|unfold called; reflexivity]; repeat constructor
    | exists []; split; [constructor|]; rewrite app_nil_r; reflexivity ].

Ltac store_only_tac :=
  intros [store server t written made]; go_unfold; simpl;
  repeat store_only_step; store_only_close.

Lemma connectElasticSearch_store_only : store_only connectElasticSearch.
Proof. unfold connectElasticSearch. store_only_tac. Qed.

Lemma getBook_store_only id : store_only (getBook id).
Proof. unfold getBook. store_only_tac. Qed.

Lemma deleteBook_store_only id : store_only (deleteBook id).
Proof. unfold deleteBook. store_only_tac. Qed.

Lemma updateBook_store_only fmt_q id title : store_only (updateBook fmt_q id title).
Proof. unfold updateBook. store_only_tac. Qed.

Lemma addBook_store_only id b : store_only (addBook id b).
Proof. unfold addBook. store_only_tac. Qed.

Lemma searchBook_store_only title authorName priceRange :
  store_only (searchBook title authorName priceRange).
Proof. unfold searchBook. store_only_tac. Qed.

Lemma storeBook_store_only : store_only storeBook.
Proof. unfold storeBook. store_only_tac. Qed.

Lemma book_dispatch_store_only fmt_q method id title authorName price ebook date :
  store_only (book_dispatch fmt_q method id title authorName price ebook date).
Proof.
  unfold book_dispatch.
  repeat case_bool_decide;
    auto using getBook_store_only, deleteBook_store_only, updateBook_store_only,
               addBook_store_only.
  store_only_tac.
Qed.

Lemma store_only_returned {A} (m : Go A) (w w' : World) (a : A) :
  store_only m -> m w = Returned a w' ->
  es w' = es w /\ rds w' = rds w /\ now w' = now w /\ response w' = response w
  /\ exists cs, calls w' = (calls w ++ cs)%list
                /\ Forall (fun c => is_redis_call c = false) cs.
Proof.
  intros Hm Hrun. destruct (Hm w) as (cs & Hcs & Hw).
  rewrite Hrun in Hw. simpl in Hw. subst w'. simpl. eauto 10.
Qed.

Lemma store_only_calls {A} (m : Go A) (w : World) :
  store_only m ->
  exists cs, calls (world_of (m w)) = (calls w ++ cs)%list
             /\ Forall (fun c => is_redis_call c = false) cs.
Proof.
  intros Hm. destruct (Hm w) as (cs & Hcs & Hw). rewrite Hw. simpl. eauto.
Qed.

(** ** Failure of the activity append *)

Lemma writeToRedis_failure (userID route method : string) (w : World) (e : error) :
  append_fails_with (rds w) e ->
  exists cs,
    Forall (fun c => is_redis_call c = true) cs
    /\ writeToRedis userID route method w
       = Returned (Some e) (mkWorld (es w) (rds w) (now w) (response w) (calls w ++ cs)).
Proof.
  intros Hfail. rewrite writeToRedis_eval.
  destruct Hfail as [(cause & Hping & ->)|(pong & cause & Hping & Hcmd & ->)];
    rewrite Hping; [|cbv zeta; rewrite Hcmd].
  - exists [Redis_Ping]. split; [repeat constructor | reflexivity].
  - eexists [Redis_Ping; Redis_ZAdd _ _]. split; [repeat constructor|].
    unfold called; simpl. rewrite <- app_assoc. reflexivity.
Qed.

(** C7. When the primary operation of a request with a user id has
    returned its result without error and the activity append then
    fails, the handler still ends normally, the response holds both the
    result and the append's error ([book] writes the result first,
    [store] and [search] write the error first), the logs are unchanged
    and nothing but calls to Redis follows the primary operation. *)
Theorem recording_failure_keeps_primary_result
  (time_Parse : string -> string -> time.Time + error) (fmt_q : string -> string)
  (req : Request) (w : World) (e : error) :
  getParamValue req "user_id" <> "" ->
  append_fails_with (rds w) e ->
  (forall w1 w2 ebookAvailable price publishDate result,
      connectElasticSearch w = Returned None w1 ->
      book_params time_Parse req = inl (ebookAvailable, price, publishDate) ->
      book_dispatch fmt_q (Method req) (getParamValue req "id")
        (getParamValue req "title") (getParamValue req "author_name")
        price ebookAvailable publishDate w1 = Returned (result, None) w2 ->
      exists w' cs,
        book time_Parse fmt_q req w = Returned tt w'
        /\ response w' = (response w ++ [WString result; WError e])%list
        /\ rds w' = rds w
        /\ calls w' = (calls w2 ++ cs)%list
        /\ Forall (fun c => is_redis_call c = true) cs)
  /\ (forall w1 w2 result,
      connectElasticSearch w = Returned None w1 ->
      Method req = "GET" ->
      storeBook w1 = Returned (result, None) w2 ->
      exists w' cs,
        store req w = Returned tt w'
        /\ response w' = (response w ++ [WError e; WString result])%list
        /\ rds w' = rds w
        /\ calls w' = (calls w2 ++ cs)%list
        /\ Forall (fun c => is_redis_call c = true) cs)
  /\ (forall w1 w2 range result,
      connectElasticSearch w = Returned None w1 ->
      search_priceRange (getParamValue req "price_range") = inl range ->
      Method req = "GET" ->
      searchBook (getParamValue req "title") (getParamValue req "author_name") range w1
        = Returned (result, None) w2 ->
      exists w' cs,
        search req w = Returned tt w'
        /\ response w' = (response w ++ [WError e; WString result])%list
        /\ rds w' = rds w
        /\ calls w' = (calls w2 ++ cs)%list
        /\ Forall (fun c => is_redis_call c = true) cs).
Proof.
  intros Huser Hfail. split; [|split].
  - intros w1 w2 eb price date result Hconn Hparams Hprimary.
    destruct (store_only_returned _ _ _ _ connectElasticSearch_store_only Hconn)
      as (_ & Hr1 & _ & Hp1 & _).
    destruct (store_only_returned _ _ _ _ (book_dispatch_store_only _ _ _ _ _ _ _ _) Hprimary)
      as (_ & Hr2 & _ & Hp2 & _).
    assert (Hfail' : append_fails_with (rds (wrote (WString result) w2)) e)
      by (simpl; rewrite Hr2, Hr1; exact Hfail).
    destruct (writeToRedis_failure (getParamValue req "user_id") "book" (Method req) _ _ Hfail')
      as (cs & Hcs & Hwrite).
    unfold book. go_bind. rewrite Hconn, Hparams, Hprimary.
    rewrite bool_decide_true by exact Huser.
    change (Fprintf (WString result) w2) with (Returned tt (wrote (WString result) w2)).
    cbv iota beta. rewrite Hwrite. unfold Fprintf, wrote. simpl.
    eexists _, cs. split; [reflexivity|]. simpl.
    rewrite Hp2, Hp1, Hr2, Hr1, <- app_assoc. auto.
  - intros w1 w2 result Hconn Hget Hprimary.
    destruct (store_only_returned _ _ _ _ connectElasticSearch_store_only Hconn)
      as (_ & Hr1 & _ & Hp1 & _).
    destruct (store_only_returned _ _ _ _ storeBook_store_only Hprimary)
      as (_ & Hr2 & _ & Hp2 & _).
    assert (Hfail' : append_fails_with (rds w2) e) by (rewrite Hr2, Hr1; exact Hfail).
    destruct (writeToRedis_failure (getParamValue req "user_id") "store" (Method req) _ _ Hfail')
      as (cs & Hcs & Hwrite).
    unfold store, report_then_result. go_bind. rewrite Hconn, Hget. simpl.
    rewrite Hprimary. rewrite bool_decide_true by exact Huser.
    rewrite <- Hget, Hwrite. unfold Fprintf, wrote. simpl.
    eexists _, cs. split; [reflexivity|]. simpl.
    rewrite Hp2, Hp1, Hr2, Hr1, <- app_assoc. auto.
  - intros w1 w2 range result Hconn Hrange Hget Hprimary.
    destruct (store_only_returned _ _ _ _ connectElasticSearch_store_only Hconn)
      as (_ & Hr1 & _ & Hp1 & _).
    destruct (store_only_returned _ _ _ _ (searchBook_store_only _ _ _) Hprimary)
      as (_ & Hr2 & _ & Hp2 & _).
    assert (Hfail' : append_fails_with (rds w2) e) by (rewrite Hr2, Hr1; exact Hfail).
    destruct (writeToRedis_failure (getParamValue req "user_id") "search" (Method req) _ _ Hfail')
      as (cs & Hcs & Hwrite).
    unfold search, report_then_result. go_bind. rewrite Hconn, Hrange, Hget. simpl.
    rewrite Hprimary. rewrite bool_decide_true by exact Huser.
    rewrite <- Hget, Hwrite. unfold Fprintf, wrote. simpl.
    eexists _, cs. split; [reflexivity|]. simpl.
    rewrite Hp2, Hp1, Hr2, Hr1, <- app_assoc. auto.
Qed.

Lemma recording_failure_keeps_primary_result_witness :
  exists w' cs,
    store (get_as "u1") stats_redis_down = Returned tt w'
    /\ response w'
       = (response stats_redis_down
          ++ [WError (ErrorsWrap no_answer "cannot connect to Redis");
              WString summary_10_4])%list
    /\ rds w' = rds stats_redis_down
    /\ calls w'
       = (calls (world_of (storeBook (world_of (connectElasticSearch stats_redis_down))))
          ++ cs)%list
    /\ Forall (fun c => is_redis_call c = true) cs.
Proof.
  refine (proj1 (proj2 (recording_failure_keeps_primary_result no_time id
                          (get_as "u1") stats_redis_down
                          (ErrorsWrap no_answer "cannot connect to Redis") _ _))
                (world_of (connectElasticSearch stats_redis_down))
                (world_of (storeBook (world_of (connectElasticSearch stats_redis_down))))
                summary_10_4 _ _ _).
  - vm_compute. discriminate.
  - left. exists no_answer. split; reflexivity.
  - reflexivity.
  - reflexivity.
  - reflexivity.
Defined.


Lemma redis_call_not_added (c : Call) (l cs : list Call) :
  is_redis_call c = true -> c ∉ l ->
  Forall (fun c => is_redis_call c = false) cs -> c ∉ (l ++ cs)%list.
Proof.
  intros Hc Hl Hcs Hin. apply elem_of_app in Hin as [Hin|Hin]; [contradiction|].
  rewrite Forall_forall in Hcs. apply Hcs in Hin. congruence.
Qed.

Lemma store_only_outcome {A} (m : Go A) (w : World) (c : Call) :
  store_only m -> is_redis_call c = true -> c ∉ calls w -> c ∉ calls (world_of (m w)).
Proof.
  intros Hm Hc Hw. destruct (store_only_calls m w Hm) as (cs & -> & Hcs).
  apply redis_call_not_added; assumption.
Qed.

(** C10. A call to Redis made while [book], [store] or [search] serves a
    request shows that the request carried a user id and that its
    primary operation had returned without error: with no user id, with
    a verb the route does not support, or with a primary operation that
    failed, no call to Redis is made, so no append is attempted. *)
Theorem append_only_after_successful_primary
  (time_Parse : string -> string -> time.Time + error) (fmt_q : string -> string)
  (req : Request) (w : World) (c : Call) :
  is_redis_call c = true ->
  c ∉ calls w ->
  (c ∈ calls (world_of (book time_Parse fmt_q req w)) ->
     getParamValue req "user_id" <> ""
     /\ exists w1 w2 ebookAvailable price publishDate result,
          connectElasticSearch w = Returned None w1
          /\ book_params time_Parse req = inl (ebookAvailable, price, publishDate)
          /\ book_dispatch fmt_q (Method req) (getParamValue req "id")
               (getParamValue req "title") (getParamValue req "author_name")
               price ebookAvailable publishDate w1 = Returned (result, None) w2)
  /\ (c ∈ calls (world_of (store req w)) ->
     getParamValue req "user_id" <> "" /\ Method req = "GET"
     /\ exists w1 w2 result,
          connectElasticSearch w = Returned None w1
          /\ storeBook w1 = Returned (result, None) w2)
  /\ (c ∈ calls (world_of (search req w)) ->
     getParamValue req "user_id" <> "" /\ Method req = "GET"
     /\ exists w1 w2 range result,
          connectElasticSearch w = Returned None w1
          /\ search_priceRange (getParamValue req "price_range") = inl range
          /\ searchBook (getParamValue req "title") (getParamValue req "author_name")
               range w1 = Returned (result, None) w2).
Proof.
  intros Hc Hw.
  pose proof (store_only_outcome _ w c connectElasticSearch_store_only Hc Hw) as Hw1.
  split; [|split].
  - unfold book. go_bind.
    destruct (connectElasticSearch w) as [[err|] w1|w1] eqn:Hconn; simpl in Hw1;
      try (intros Hin; contradiction).
    destruct (book_params time_Parse req) as [[[eb price] date]|err] eqn:Hparams;
      try (intros Hin; contradiction).
    pose proof (store_only_outcome _ w1 c
                  (book_dispatch_store_only fmt_q (Method req) (getParamValue req "id")
                     (getParamValue req "title") (getParamValue req "author_name")
                     price eb date) Hc Hw1) as Hw2.
    destruct (book_dispatch _ _ _ _ _ _ _ _ w1) as [[result [err|]] w2|w2] eqn:Hprimary;
      simpl in Hw2; try (intros Hin; contradiction).
    change (Fprintf (WString result) w2) with (Returned tt (wrote (WString result) w2)).
    cbv iota beta.
    case_bool_decide as Huser; [|intros Hin; contradiction].
    intros _. split; [exact Huser|]. eauto 10.
  - unfold store, report_then_result. go_bind.
    destruct (connectElasticSearch w) as [[err|] w1|w1] eqn:Hconn; simpl in Hw1;
      try (intros Hin; contradiction).
    case_bool_decide as Hget; [|intros Hin; contradiction].
    pose proof (store_only_outcome _ w1 c storeBook_store_only Hc Hw1) as Hw2.
    destruct (storeBook w1) as [[result [err|]] w2|w2] eqn:Hprimary;
      simpl in Hw2; try (intros Hin; contradiction).
    case_bool_decide as Huser.
    + intros _. split; [exact Huser|]. split; [exact Hget|]. eauto 10.
    + intros Hin. contradiction.
  - unfold search, report_then_result. go_bind.
    destruct (connectElasticSearch w) as [[err|] w1|w1] eqn:Hconn; simpl in Hw1;
      try (intros Hin; contradiction).
    destruct (search_priceRange _) as [range|err] eqn:Hrange;
      try (intros Hin; contradiction).
    case_bool_decide as Hget; [|intros Hin; contradiction].
    pose proof (store_only_outcome _ w1 c
                  (searchBook_store_only (getParamValue req "title")
                     (getParamValue req "author_name") range) Hc Hw1) as Hw2.
    destruct (searchBook _ _ _ w1) as [[result [err|]] w2|w2] eqn:Hprimary;
      simpl in Hw2; try (intros Hin; contradiction).
    case_bool_decide as Huser.
    + intros _. split; [exact Huser|]. split; [exact Hget|]. eauto 10.
    + intros Hin. contradiction.
Qed.

Lemma append_only_after_successful_primary_witness :
  getParamValue (get_as "u1") "user_id" <> "" /\ Method (get_as "u1") = "GET"
  /\ exists w1 w2 result,
       connectElasticSearch stats_redis_down = Returned None w1
       /\ storeBook w1 = Returned (result, None) w2.
Proof.
  refine (proj1 (proj2 (append_only_after_successful_primary no_time id
                          (get_as "u1") stats_redis_down Redis_Ping _ _)) _).
  - reflexivity.
  - vm_compute. apply not_elem_of_nil.
  - vm_compute. do 2 apply list_elem_of_further. apply list_elem_of_here.
Defined.


(** ** The two search calls and their errors *)

Lemma searchBook_failure (title authorName : string) (priceRange : Range)
  (w : World) (err : error) :
  search_do (es w) (searchBook_request (searchBook_query title authorName priceRange))
    = inr err ->
  searchBook title authorName priceRange w
  = Panicked (called (ES_Search (searchBook_request
                                   (searchBook_query title authorName priceRange))) w).
Proof. intros H. unfold searchBook. go_unfold. simpl. rewrite H. reflexivity. Qed.

Lemma storeBook_failure (w : World) (err : error) :
  search_do (es w) storeBook_request = inr err ->
  storeBook w = Panicked (called (ES_Search storeBook_request) w).
Proof. intros H. unfold storeBook. go_unfold. simpl. rewrite H. reflexivity. Qed.

Lemma searchBook_returned (title authorName : string) (priceRange : Range)
  (w w' : World) (r : string * option error) :
  searchBook title authorName priceRange w = Returned r w' ->
  r.2 = None
  /\ exists searchResult hits,
       search_do (es w) (searchBook_request (searchBook_query title authorName priceRange))
         = inl searchResult
       /\ elastic.Hits searchResult = Some hits.
Proof.
  unfold searchBook. go_unfold. simpl.
  destruct (search_do (es w) _) as [sr|e]; [|discriminate].
  destruct (elastic.Hits sr) as [hits|] eqn:Hhits; [|discriminate].
  destruct (0 <? length (elastic.Hits_Hits hits))%nat.
  - destruct (mapM elastic.Source (elastic.Hits_Hits hits)); [|discriminate].
    intros [= <- _]. eauto.
  - intros [= <- _]. eauto.
Qed.

Lemma storeBook_returned (w w' : World) (r : string * option error) :
  storeBook w = Returned r w' ->
  r.2 = None
  /\ exists searchResult, search_do (es w) storeBook_request = inl searchResult.
Proof.
  unfold storeBook. go_unfold. simpl.
  destruct (search_do (es w) _) as [sr|e]; [|discriminate].
  destruct (elastic.Cardinality _ _) as [d|].
  - destruct (elastic.Hits sr) as [hits|]; [|discriminate].
    destruct (elastic.Value d); [|discriminate].
    intros [= <- _]. eauto.
  - intros [= <- _]. eauto.
Qed.

(** C8: the code at a store whose search call fails.  [searchBook] and
    [storeBook] panic on the missing result; the handlers [search] and
    [store] end in that panic with nothing written, so the error of the
    call never reaches the caller. *)
Theorem search_call_failure_not_reported :
  search_do (es store_down) (searchBook_request (searchBook_query "" "" unset))
    = inr no_answer
  /\ searchBook "" "" unset store_down
     = Panicked (called (ES_Search (searchBook_request (searchBook_query "" "" unset)))
                        store_down)
  /\ storeBook store_down = Panicked (called (ES_Search storeBook_request) store_down)
  /\ (exists w', search plain_get store_down = Panicked w' /\ response w' = [])
  /\ (exists w', store plain_get store_down = Panicked w' /\ response w' = []).
Proof.
  split; [reflexivity|]. split; [reflexivity|]. split; [reflexivity|]. split.
  - exists (world_of (search plain_get store_down)). split; vm_compute; reflexivity.
  - exists (world_of (store plain_get store_down)). split; vm_compute; reflexivity.
Qed.

(** C9. [searchBook] and [storeBook] read the fields of the search result
    before any look at the call's error: they return only when the call
    has produced a result, and a call that fails leaves them without a
    value, in a panic. *)
Theorem result_access_needs_successful_call
  (title authorName : string) (priceRange : Range) (w : World) :
  let request := searchBook_request (searchBook_query title authorName priceRange) in
  (forall r w', searchBook title authorName priceRange w = Returned r w' ->
     exists searchResult, search_do (es w) request = inl searchResult)
  /\ (forall r w', storeBook w = Returned r w' ->
     exists searchResult, search_do (es w) storeBook_request = inl searchResult)
  /\ (forall err, search_do (es w) request = inr err ->
     searchBook title authorName priceRange w = Panicked (called (ES_Search request) w))
  /\ (forall err, search_do (es w) storeBook_request = inr err ->
     storeBook w = Panicked (called (ES_Search storeBook_request) w)).
Proof.
  intros request. split; [|split; [|split]].
  - intros r w' H. apply searchBook_returned in H as (_ & sr & hits & Hsr & _). eauto.
  - intros r w' H. apply storeBook_returned in H as (_ & sr & Hsr). eauto.
  - intros err. apply searchBook_failure.
  - intros err. apply storeBook_failure.
Qed.

Lemma result_access_needs_successful_call_witness :
  searchBook "" "" unset store_down
  = Panicked (called (ES_Search (searchBook_request (searchBook_query "" "" unset)))
                     store_down).
Proof.
  apply (proj1 (proj2 (proj2 (result_access_needs_successful_call "" "" unset store_down)))
           no_answer).
  reflexivity.
Defined.

(** ** The logs across whole requests *)

Lemma logs_kept_refl (s : redis.Server) : logs_kept s s.
Proof. split; auto. Qed.

Lemma store_only_rds {A} (m : Go A) (w : World) :
  store_only m -> rds (world_of (m w)) = rds w.
Proof. intros Hm. destruct (Hm w) as (cs & _ & ->). reflexivity. Qed.

Lemma writeToRedis_keeps_logs (userID route method : string) (w : World) :
  userID <> "" -> logs_kept (rds w) (rds (world_of (writeToRedis userID route method w))).
Proof.
  intros Huser. rewrite writeToRedis_eval.
  destruct (redis.ping (rds w)) as [pong|err]; [|apply logs_kept_refl]. cbv zeta.
  destruct (redis.command_error (rds w)); [apply logs_kept_refl|].
  change (rds (world_of (Returned None (with_redis ?s _)))) with s. split.
  - intros key m Hm. destruct (decide (key = userID)) as [->|Hne].
    + rewrite zset_of_zadd_same, lookup_insert. case_decide; [eauto | exact Hm].
    + rewrite zset_of_zadd_other by exact Hne. exact Hm.
  - intros Hnone. unfold redis.zadd. simpl.
    rewrite lookup_insert_ne by exact Huser. exact Hnone.
Qed.

Lemma report_keeps_logs (route method userId result : string) (err : option error)
  (w : World) :
  logs_kept (rds w) (rds (world_of (report_then_result route method userId result err w))).
Proof.
  unfold report_then_result. destruct err as [err|]; [apply logs_kept_refl|].
  go_bind. case_bool_decide as Huser; [|apply logs_kept_refl].
  pose proof (writeToRedis_keeps_logs userId route method w Huser) as Hkept.
  destruct (writeToRedis userId route method w) as [[e|] w1|w1]; exact Hkept.
Qed.

(** X20. No handler removes a member from a log or gives the empty user
    id a log: whatever the request, the logs only grow, and [activity]
    leaves them as they are. *)
Lemma handlers_keep_logs
  (time_Parse : string -> string -> time.Time + error) (fmt_q : string -> string)
  (req : Request) (w : World) :
  logs_kept (rds w) (rds (world_of (book time_Parse fmt_q req w)))
  /\ logs_kept (rds w) (rds (world_of (store req w)))
  /\ logs_kept (rds w) (rds (world_of (search req w)))
  /\ rds (world_of (activity req w)) = rds w.
Proof.
  pose proof (store_only_rds _ w connectElasticSearch_store_only) as Hr1.
  split; [|split; [|split]].
  - unfold book. go_bind.
    destruct (connectElasticSearch w) as [[err|] w1|w1]; simpl in Hr1;
      try (simpl; rewrite Hr1; apply logs_kept_refl).
    destruct (book_params time_Parse req) as [[[eb price] date]|err];
      try (simpl; rewrite Hr1; apply logs_kept_refl).
    pose proof (store_only_rds _ w1
                  (book_dispatch_store_only fmt_q (Method req) (getParamValue req "id")
                     (getParamValue req "title") (getParamValue req "author_name")
                     price eb date)) as Hr2.
    destruct (book_dispatch _ _ _ _ _ _ _ _ w1) as [[result [err|]] w2|w2];
      simpl in Hr2; try (simpl; rewrite Hr2, Hr1; apply logs_kept_refl).
    change (Fprintf (WString result) w2) with (Returned tt (wrote (WString result) w2)).
    cbv iota beta.
    case_bool_decide as Huser; [|simpl; rewrite Hr2, Hr1; apply logs_kept_refl].
    pose proof (writeToRedis_keeps_logs (getParamValue req "user_id") "book" (Method req)
                  (wrote (WString result) w2) Huser) as Hkept.
    simpl rds in Hkept at 1. rewrite Hr2, Hr1 in Hkept.
    destruct (writeToRedis _ _ _ _) as [[e|] w3|w3]; exact Hkept.
  - unfold store. go_bind.
    destruct (connectElasticSearch w) as [[err|] w1|w1]; simpl in Hr1;
      try (simpl; rewrite Hr1; apply logs_kept_refl).
    rewrite <- Hr1.
    assert (Hprimary : store_only
              (if bool_decide (Method req = "GET") then storeBook
               else mret ("", Some (ErrorsNew ("Unsupported request for /store " +:+ Method req))))).
    { case_bool_decide; [apply storeBook_store_only | store_only_tac]. }
    pose proof (store_only_rds _ w1 Hprimary) as Hr2.
    destruct ((if bool_decide (Method req = "GET") then storeBook else _) w1)
      as [[result err] w2|w2]; simpl in Hr2; rewrite <- Hr2;
      [apply report_keeps_logs | apply logs_kept_refl].
  - unfold search. go_bind.
    destruct (connectElasticSearch w) as [[err|] w1|w1]; simpl in Hr1;
      try (simpl; rewrite Hr1; apply logs_kept_refl).
    rewrite <- Hr1.
    destruct (search_priceRange _) as [range|err]; [|apply logs_kept_refl].
    assert (Hprimary : store_only
              (if bool_decide (Method req = "GET")
               then searchBook (getParamValue req "title")
                               (getParamValue req "author_name") range
               else mret ("", Some (ErrorsNew ("Unsupported request for /search " +:+ Method req))))).
    { case_bool_decide; [apply searchBook_store_only | store_only_tac]. }
    pose proof (store_only_rds _ w1 Hprimary) as Hr2.
    destruct ((if bool_decide (Method req = "GET") then searchBook _ _ _ else _) w1)
      as [[result err] w2|w2]; simpl in Hr2; rewrite <- Hr2;
      [apply report_keeps_logs | apply logs_kept_refl].
  - unfold activity, connectRedis, redis_Ping, redis_ZRevRangeWithScores.
    unfold mbind, mret, Go_bind, Go_ret, bind, ret, record, ask_redis. simpl.
    destruct (redis.ping (rds w)); [|reflexivity]. simpl.
    case_bool_decide; [|reflexivity].
    case_bool_decide; [|reflexivity]. simpl.
    destruct (redis.command_error (rds w)); [reflexivity|]. simpl.
    rewrite for_range_Fprintf. reflexivity.
Qed.

(** * Further properties *)

(** ** More on the filter composer *)

Lemma unset_iff (r : Range) : r = unset <-> From r = -1 /\ To r = -1.
Proof.
  destruct r as [from to]. unfold unset. simpl. split.
  - intros [= -> ->]. split; reflexivity.
  - intros [-> ->]. reflexivity.
Qed.

Lemma searchBook_query_matches_bool
  (text_matches : string -> string -> Book -> bool)
  (title authorName : string) (priceRange : Range) (b : Book) :
  matches text_matches (searchBook_query title authorName priceRange) b
  = (bool_decide (title = "") || text_matches "title" title b)
    && (bool_decide (authorName = "") || text_matches "author_name" authorName b)
    && (((From priceRange =? -1) && (To priceRange =? -1))
        || ((From priceRange <=? Price b) && (Price b <=? To priceRange))).
Proof.
  unfold searchBook_query.
  destruct ((From priceRange =? -1) && (To priceRange =? -1));
    repeat case_bool_decide; try congruence;
    cbn [negb app elastic.Must elastic.NewBoolQuery matches forallb
         elastic.NewMatchQuery orb andb];
    try reflexivity;
    change (matches text_matches
              (elastic.To (To priceRange)
                 (elastic.From (From priceRange) (elastic.NewRangeQuery "price"))) b)
      with ((From priceRange <=? Price b) && (Price b <=? To priceRange));
    rewrite ?andb_true_r, ?andb_assoc; reflexivity.
Qed.

(** X1. A document matches the query [searchBook] composes exactly when
    it satisfies every criterion that was supplied: the title match
    unless the title is empty, the author match unless the author is
    empty, and [from <= price <= to] unless the range is the unset one. *)
Theorem searchBook_query_matches_iff
  (text_matches : string -> string -> Book -> bool)
  (title authorName : string) (priceRange : Range) (b : Book) :
  matches text_matches (searchBook_query title authorName priceRange) b = true
  <-> (title = "" \/ text_matches "title" title b = true)
      /\ (authorName = "" \/ text_matches "author_name" authorName b = true)
      /\ (priceRange = unset \/ From priceRange <= Price b <= To priceRange).
Proof.
  rewrite searchBook_query_matches_bool, unset_iff.
  rewrite !andb_true_iff, !orb_true_iff, !andb_true_iff, !bool_decide_eq_true,
          !Z.eqb_eq, !Z.leb_le.
  tauto.
Qed.

(** X2. The bounds are not compared with each other: a range whose upper
    bound lies below its lower bound is sent as it is, and the query
    composed from it matches no document. *)
Theorem inverted_price_range_matches_nothing
  (text_matches : string -> string -> Book -> bool)
  (title authorName : string) (priceRange : Range) (b : Book) :
  To priceRange < From priceRange ->
  matches text_matches (searchBook_query title authorName priceRange) b = false.
Proof.
  intros Hinv. rewrite searchBook_query_matches_bool.
  destruct ((From priceRange =? -1) && (To priceRange =? -1)) eqn:Hs.
  - apply andb_true_iff in Hs as [H1 H2]. apply Z.eqb_eq in H1, H2. lia.
  - destruct (From priceRange <=? Price b) eqn:H1, (Price b <=? To priceRange) eqn:H2;
      rewrite ?andb_false_r; try reflexivity.
    apply Z.leb_le in H1, H2. lia.
Qed.

Lemma inverted_price_range_matches_nothing_witness :
  matches (fun _ _ _ => true) (searchBook_query "" "" (mkRange 20 10))
          (mkBook "Dune" "Herbert" 15 false time.zero) = false.
Proof.
  apply (inverted_price_range_matches_nothing (fun _ _ _ => true) "" "" (mkRange 20 10)).
  simpl. lia.
Defined.
(** ** More on the price range of a search request *)

Lemma Split_without_sep (s : string) (sep : ascii) :
  strings.ContainsRune s sep = false -> strings.Split s sep = [s].
Proof.
  induction s as [|c s IH]; simpl; [reflexivity|].
  intros H. apply orb_false_elim in H as [Hc Hs].
  rewrite Hc, (IH Hs). reflexivity.
Qed.

Lemma Atoi_in_range (s : string) (v : Z) :
  strconv.Atoi s = inl v -> strconv.minInt <= v <= strconv.maxInt.
Proof.
  unfold strconv.Atoi.
  destruct (match s with
            | EmptyString => (false, s)
            | String c rest =>
                if Ascii.eqb c "-" then (true, rest)
                else if Ascii.eqb c "+" then (false, rest) else (false, s)
            end) as [neg body].
  destruct body as [|d body]; [discriminate|].
  destruct (strconv.digits 0 (String d body)) as [n|]; [|discriminate].
  destruct ((strconv.minInt <=? (if neg then - n else n))
            && ((if neg then - n else n) <=? strconv.maxInt)) eqn:Hb; [|discriminate].
  intros [= <-]. apply andb_true_iff in Hb as [H1 H2].
  apply Z.leb_le in H1, H2. lia.
Qed.

(** X3. Whatever the [price_range] parameter holds, the range [search]
    reads from it is the unset one or has both bounds between 0 and the
    largest [int]: a negative bound cannot be written, since [-] is the
    separator.  A parameter without any [-], a single number for one, is
    read as the unset range. *)
Theorem price_range_never_negative (priceRange : string) :
  (forall r, search_priceRange priceRange = inl r ->
     r = unset \/ (0 <= From r <= strconv.maxInt /\ 0 <= To r <= strconv.maxInt))
  /\ (strings.ContainsRune priceRange "-" = false ->
      search_priceRange priceRange = inl unset).
Proof.
  split.
  - intros r Hr.
    destruct (decide (length (strings.Split priceRange "-") = 2%nat)) as [Hlen|Hlen].
    + right. pose proof (search_priceRange_parsed_nonneg _ _ Hlen Hr) as [Hf Ht].
      unfold search_priceRange in Hr.
      destruct (strings.Split priceRange "-") as [|a [|b [|c l]]]; try discriminate.
      destruct (strconv.Atoi a) as [x|] eqn:Hx; [|discriminate].
      destruct (strconv.Atoi b) as [y|] eqn:Hy; [|discriminate].
      injection Hr as <-. simpl in *.
      apply Atoi_in_range in Hx, Hy. lia.
    + left. unfold search_priceRange in Hr.
      unfold unset.
      destruct (strings.Split priceRange "-") as [|a [|b [|c l]]]; simpl in Hlen;
        congruence.
  - intros Hnone. unfold search_priceRange.
    rewrite (Split_without_sep _ _ Hnone). reflexivity.
Qed.

Lemma price_range_never_negative_witness : search_priceRange "50" = inl unset.
Proof.
  apply (proj2 (price_range_never_negative "50")). reflexivity.
Defined.

(** ** More on the two search calls *)

(** X4. Neither [searchBook] nor [storeBook] ever returns an error:
    whatever the store answers and whatever the criteria, no run of
    either ends with a result paired with a non-nil error. *)
Theorem search_functions_return_no_error
  (title authorName : string) (priceRange : Range) (w w' : World)
  (result : string) (e : error) :
  searchBook title authorName priceRange w <> Returned (result, Some e) w'
  /\ storeBook w <> Returned (result, Some e) w'.
Proof.
  split; intros H.
  - apply searchBook_returned in H as [Herr _]. discriminate.
  - apply storeBook_returned in H as [Herr _]. discriminate.
Qed.
(** ** How a request ends early *)

Lemma connect_ok (w : World) :
  new_simple_client (es w) = None ->
  connectElasticSearch w = Returned None (called (ES_NewSimpleClient URL) w).
Proof. intros H. unfold connectElasticSearch. go_unfold. simpl. rewrite H. reflexivity. Qed.

Lemma connect_fails (w : World) (e : error) :
  new_simple_client (es w) = Some e ->
  connectElasticSearch w
  = Returned (Some (ErrorsWrap e "cannot connect to elastic search"))
             (called (ES_NewSimpleClient URL) w).
Proof. intros H. unfold connectElasticSearch. go_unfold. simpl. rewrite H. reflexivity. Qed.

(** X5. When the Elasticsearch client cannot be created, [book], [store]
    and [search] write the error as [connectElasticSearch] wrapped it
    and stop: no store operation and no call to Redis is made. *)
Theorem client_creation_failure_ends_request
  (time_Parse : string -> string -> time.Time + error) (fmt_q : string -> string)
  (req : Request) (w : World) (e : error) :
  new_simple_client (es w) = Some e ->
  let ended :=
    Returned tt (wrote (WError (ErrorsWrap e "cannot connect to elastic search"))
                       (called (ES_NewSimpleClient URL) w)) in
  book time_Parse fmt_q req w = ended
  /\ store req w = ended
  /\ search req w = ended.
Proof.
  intros H ended. subst ended.
  unfold book, store, search. go_bind. rewrite (connect_fails w e H).
  repeat split; reflexivity.
Qed.

Lemma client_creation_failure_ends_request_witness :
  store (get_as "u1") client_refused
  = Returned tt (wrote (WError (ErrorsWrap no_answer "cannot connect to elastic search"))
                       (called (ES_NewSimpleClient URL) client_refused)).
Proof.
  apply (proj1 (proj2 (client_creation_failure_ends_request no_time id (get_as "u1")
                         client_refused no_answer eq_refl))).
Defined.

(** X6. A [book] request whose [ebook_available], [price] or
    [publish_date] parameter does not convert ends with that conversion
    error, wrapped with the name of the field, before the verb is looked
    at: no store operation and no call to Redis is made. *)
Theorem book_rejects_malformed_parameters
  (time_Parse : string -> string -> time.Time + error) (fmt_q : string -> string)
  (req : Request) (w : World) (e : error) :
  new_simple_client (es w) = None ->
  book_params time_Parse req = inr e ->
  book time_Parse fmt_q req w
  = Returned tt (wrote (WError e) (called (ES_NewSimpleClient URL) w))
  /\ exists cause field,
       e = ErrorsWrap cause ("conversion from string to " +:+ field +:+ " failed")
       /\ field ∈ ["bool for field ebookAvailable"; "int for field price";
                   "time for field publishDate"].
Proof.
  intros Hclient Hparams. split.
  - unfold book. go_bind. rewrite (connect_ok w Hclient), Hparams. reflexivity.
  - unfold book_params in Hparams.
    destruct (if bool_decide (getParamValue req "ebook_available" ≠ "") then _ else _)
      as [eb|cause].
    + destruct (if bool_decide (getParamValue req "price" ≠ "") then _ else _)
        as [price|cause].
      * destruct (if bool_decide (getParamValue req "publish_date" ≠ "") then _ else _)
          as [date|cause]; [discriminate|].
        injection Hparams as <-. exists cause, "time for field publishDate".
        split; [reflexivity|]. set_solver.
      * injection Hparams as <-. exists cause, "int for field price".
        split; [reflexivity|]. set_solver.
    + injection Hparams as <-. exists cause, "bool for field ebookAvailable".
      split; [reflexivity|]. set_solver.
Qed.

Lemma book_rejects_malformed_parameters_witness :
  book no_time id (put_with_price "ten") store_down
  = Returned tt
      (wrote (WError (ErrorsWrap (NumError "Atoi" "ten" strconv.ErrSyntax)
                        "conversion from string to int for field price failed"))
             (called (ES_NewSimpleClient URL) store_down)).
Proof.
  apply (proj1 (book_rejects_malformed_parameters no_time id (put_with_price "ten")
                  store_down _ eq_refl eq_refl)).
Defined.

Lemma book_dispatch_unsupported (fmt_q : string -> string)
  (method id title authorName : string) (price : Z) (eb : bool) (date : time.Time) :
  method ∉ ["GET"; "DELETE"; "POST"; "PUT"] ->
  book_dispatch fmt_q method id title authorName price eb date
  = mret ("", Some (ErrorsNew ("Unsupported request for /book " +:+ method))).
Proof.
  intros Hm. unfold book_dispatch.
  repeat case_bool_decide; try reflexivity; subst; exfalso; apply Hm; set_solver.
Qed.

(** X7. A verb the route does not define ends the request with the error
    [Unsupported request for /route VERB] and nothing else: [book],
    [store] and [search] make no store operation and no call to Redis
    ([book] and [search] only once their parameters have converted);
    [activity] has pinged Redis by then but reads no log.  Verbs are
    compared as they are written, so [get] is not [GET]. *)
Theorem unsupported_verb_is_reported
  (time_Parse : string -> string -> time.Time + error) (fmt_q : string -> string)
  (req : Request) (w : World) :
  Method req ∉ ["GET"; "DELETE"; "POST"; "PUT"] ->
  let unsupported route :=
    WError (ErrorsNew ("Unsupported request for /" +:+ route +:+ " " +:+ Method req)) in
  (forall params,
      new_simple_client (es w) = None ->
      book_params time_Parse req = inl params ->
      book time_Parse fmt_q req w
      = Returned tt (wrote (unsupported "book") (called (ES_NewSimpleClient URL) w)))
  /\ (new_simple_client (es w) = None ->
      store req w
      = Returned tt (wrote (unsupported "store") (called (ES_NewSimpleClient URL) w)))
  /\ (forall range,
      new_simple_client (es w) = None ->
      search_priceRange (getParamValue req "price_range") = inl range ->
      search req w
      = Returned tt (wrote (unsupported "search") (called (ES_NewSimpleClient URL) w)))
  /\ (forall pong,
      redis.ping (rds w) = inl pong ->
      activity req w
      = Returned tt (wrote (unsupported "activity") (called Redis_Ping w))).
Proof.
  intros Hverb unsupported.
  assert (Hget : Method req <> "GET") by (intros Heq; apply Hverb; rewrite Heq; set_solver).
  split; [|split; [|split]].
  - intros [[eb price] date] Hclient Hparams.
    unfold book. go_bind. rewrite (connect_ok w Hclient), Hparams.
    rewrite (book_dispatch_unsupported fmt_q _ _ _ _ _ _ _ Hverb). reflexivity.
  - intros Hclient. unfold store, report_then_result. go_bind.
    rewrite (connect_ok w Hclient). rewrite bool_decide_false by exact Hget. reflexivity.
  - intros range Hclient Hrange. unfold search, report_then_result. go_bind.
    rewrite (connect_ok w Hclient), Hrange.
    rewrite bool_decide_false by exact Hget. reflexivity.
  - intros pong Hping. unfold activity, connectRedis, redis_Ping.
    unfold mbind, mret, Go_bind, Go_ret, bind, ret, record, ask_redis. simpl.
    rewrite Hping. rewrite bool_decide_false by exact Hget. reflexivity.
Qed.

Lemma unsupported_verb_is_reported_witness :
  store (mkRequest "get" ∅) store_down
  = Returned tt
      (wrote (WError (ErrorsNew ("Unsupported request for /" +:+ "store" +:+ " " +:+ "get")))
             (called (ES_NewSimpleClient URL) store_down)).
Proof.
  refine (proj1 (proj2 (unsupported_verb_is_reported no_time id (mkRequest "get" ∅)
                          store_down _)) _).
  - apply (bool_decide_unpack _). vm_compute. exact I.
  - reflexivity.
Defined.

(** ** Failures of the catalog operations *)

(** X8. For each of the four verbs of [book], a store call that fails
    ends the request with that failure as its only output, after the one
    store call and without any call to Redis.  [getBook], [deleteBook]
    and [addBook] wrap the error with their own message; [updateBook]
    passes it on as it came. *)
Theorem catalog_failure_is_reported
  (time_Parse : string -> string -> time.Time + error) (fmt_q : string -> string)
  (req : Request) (w : World) (e : error) (ebookAvailable : bool) (price : Z)
  (publishDate : time.Time) :
  new_simple_client (es w) = None ->
  book_params time_Parse req = inl (ebookAvailable, price, publishDate) ->
  let id := getParamValue req "id" in
  let title := getParamValue req "title" in
  let document :=
    mkBook title (getParamValue req "author_name") price ebookAvailable publishDate in
  let ended op reported :=
    book time_Parse fmt_q req w
    = Returned tt (wrote (WError reported) (called op (called (ES_NewSimpleClient URL) w))) in
  (Method req = "GET" -> get_do (es w) "books" "book" id = inr e ->
     ended (ES_Get "books" "book" id) (ErrorsWrap e "Cannot GET a book"))
  /\ (Method req = "DELETE" -> delete_do (es w) "books" "book" id = inr e ->
     ended (ES_Delete "books" "book" id) (ErrorsWrap e "cannot delete the book"))
  /\ (Method req = "POST" -> update_do (es w) "books" "book" id title = inr e ->
     ended (ES_Update "books" "book" id title) e)
  /\ (Method req = "PUT" -> index_do (es w) "books" "book" id document = inr e ->
     ended (ES_Index "books" "book" id document) (ErrorsWrap e "cannot add the book")).
Proof.
  intros Hclient Hparams id title document ended. subst ended. cbv beta.
  repeat split; intros Hverb Hfail;
    unfold book; go_bind; rewrite (connect_ok w Hclient), Hparams;
    unfold book_dispatch; rewrite Hverb; simpl;
    unfold getBook, deleteBook, updateBook, addBook; go_unfold; simpl;
    fold id; fold title; fold document;
    unfold USER_INDEX, USER_TYPE; rewrite Hfail; reflexivity.
Qed.

Lemma catalog_failure_is_reported_witness :
  book no_time id delete_1 store_down
  = Returned tt
      (wrote (WError (ErrorsWrap no_answer "cannot delete the book"))
             (called (ES_Delete "books" "book" "1")
                     (called (ES_NewSimpleClient URL) store_down))).
Proof.
  apply (proj1 (proj2 (catalog_failure_is_reported no_time id delete_1 store_down
                         no_answer false 0 time.zero eq_refl eq_refl))).
  - reflexivity.
  - reflexivity.
Defined.

(** ** The activity append after a successful operation *)

Lemma writeToRedis_success (userID route method pong : string) (w : World) :
  redis.ping (rds w) = inl pong ->
  redis.command_error (rds w) = None ->
  let z := redis.mkZ (time.Nanosecond (now w)) (activity_label route method) in
  writeToRedis userID route method w
  = Returned None (with_redis (redis.zadd userID z (rds w)).2
                     (called (Redis_ZAdd userID z) (called Redis_Ping w))).
Proof. intros Hping Hcmd. rewrite writeToRedis_eval, Hping. cbv zeta. rewrite Hcmd. reflexivity. Qed.

(** X10. When the primary operation of a request with a user id has
    returned its result without error and Redis answers, the handler
    writes the result and nothing else, and the user's log holds the
    label of the route and the verb with the nanosecond reading of the
    clock as its score; the logs of other users are unchanged, and the
    ping and the one ZADD are the only calls after the primary one. *)
Theorem successful_request_records_activity
  (time_Parse : string -> string -> time.Time + error) (fmt_q : string -> string)
  (req : Request) (w : World) (pong : string) :
  getParamValue req "user_id" <> "" ->
  redis.ping (rds w) = inl pong ->
  redis.command_error (rds w) = None ->
  let userId := getParamValue req "user_id" in
  let recorded route result w2 w' :=
    response w' = (response w ++ [WString result])%list
    /\ redis.zset_of (rds w') userId
       = <[activity_label route (Method req) := time.Nanosecond (now w)]>
           (redis.zset_of (rds w) userId)
    /\ (forall other, other <> userId ->
          redis.zset_of (rds w') other = redis.zset_of (rds w) other)
    /\ calls w'
       = (calls w2
          ++ [Redis_Ping;
              Redis_ZAdd userId (redis.mkZ (time.Nanosecond (now w))
                                           (activity_label route (Method req)))])%list in
  (forall w1 w2 ebookAvailable price publishDate result,
      connectElasticSearch w = Returned None w1 ->
      book_params time_Parse req = inl (ebookAvailable, price, publishDate) ->
      book_dispatch fmt_q (Method req) (getParamValue req "id")
        (getParamValue req "title") (getParamValue req "author_name")
        price ebookAvailable publishDate w1 = Returned (result, None) w2 ->
      exists w', book time_Parse fmt_q req w = Returned tt w'
                 /\ recorded "book" result w2 w')
  /\ (forall w1 w2 result,
      connectElasticSearch w = Returned None w1 ->
      Method req = "GET" ->
      storeBook w1 = Returned (result, None) w2 ->
      exists w', store req w = Returned tt w' /\ recorded "store" result w2 w')
  /\ (forall w1 w2 range result,
      connectElasticSearch w = Returned None w1 ->
      search_priceRange (getParamValue req "price_range") = inl range ->
      Method req = "GET" ->
      searchBook (getParamValue req "title") (getParamValue req "author_name") range w1
        = Returned (result, None) w2 ->
      exists w', search req w = Returned tt w' /\ recorded "search" result w2 w').
Proof.
  intros Huser Hping Hcmd userId recorded. subst recorded userId. cbv beta.
  split; [|split].
  - intros w1 w2 eb price date result Hconn Hparams Hprimary.
    destruct (store_only_returned _ _ _ _ connectElasticSearch_store_only Hconn)
      as (_ & Hr1 & Hn1 & Hp1 & _).
    destruct (store_only_returned _ _ _ _ (book_dispatch_store_only _ _ _ _ _ _ _ _) Hprimary)
      as (_ & Hr2 & Hn2 & Hp2 & _).
    unfold book. go_bind. rewrite Hconn, Hparams, Hprimary.
    rewrite bool_decide_true by exact Huser.
    change (Fprintf (WString result) w2) with (Returned tt (wrote (WString result) w2)).
    cbv iota beta.
    rewrite (writeToRedis_success (getParamValue req "user_id") "book" (Method req) pong (wrote (WString result) w2))
      by (simpl; rewrite Hr2, Hr1; assumption).
    eexists. split; [reflexivity|].
    cbv zeta. change (rds (with_redis ?s _)) with s.
    change (now (wrote _ w2)) with (now w2). change (rds (wrote _ w2)) with (rds w2).
    rewrite Hn2, Hn1, Hr2, Hr1.
    split; [simpl; rewrite Hp2, Hp1; reflexivity|].
    split; [apply zset_of_zadd_same|]. split.
    + intros other Hne. apply zset_of_zadd_other. exact Hne.
    + simpl. rewrite <- !app_assoc. reflexivity.
  - intros w1 w2 result Hconn Hget Hprimary.
    destruct (store_only_returned _ _ _ _ connectElasticSearch_store_only Hconn)
      as (_ & Hr1 & Hn1 & Hp1 & _).
    destruct (store_only_returned _ _ _ _ storeBook_store_only Hprimary)
      as (_ & Hr2 & Hn2 & Hp2 & _).
    unfold store, report_then_result. go_bind. rewrite Hconn, Hget. simpl.
    rewrite Hprimary. rewrite bool_decide_true by exact Huser.
    rewrite <- Hget.
    rewrite (writeToRedis_success (getParamValue req "user_id") "store" (Method req) pong w2)
      by (rewrite Hr2, Hr1; assumption).
    eexists. split; [reflexivity|].
    cbv zeta. unfold Fprintf. change (rds (wrote _ (with_redis ?s _))) with s.
    rewrite Hn2, Hn1, Hr2, Hr1.
    split; [simpl; rewrite Hp2, Hp1; reflexivity|].
    split; [apply zset_of_zadd_same|]. split.
    + intros other Hne. apply zset_of_zadd_other. exact Hne.
    + simpl. rewrite <- !app_assoc. reflexivity.
  - intros w1 w2 range result Hconn Hrange Hget Hprimary.
    destruct (store_only_returned _ _ _ _ connectElasticSearch_store_only Hconn)
      as (_ & Hr1 & Hn1 & Hp1 & _).
    destruct (store_only_returned _ _ _ _ (searchBook_store_only _ _ _) Hprimary)
      as (_ & Hr2 & Hn2 & Hp2 & _).
    unfold search, report_then_result. go_bind. rewrite Hconn, Hrange, Hget. simpl.
    rewrite Hprimary. rewrite bool_decide_true by exact Huser.
    rewrite <- Hget.
    rewrite (writeToRedis_success (getParamValue req "user_id") "search" (Method req) pong w2)
      by (rewrite Hr2, Hr1; assumption).
    eexists. split; [reflexivity|].
    cbv zeta. unfold Fprintf. change (rds (wrote _ (with_redis ?s _))) with s.
    rewrite Hn2, Hn1, Hr2, Hr1.
    split; [simpl; rewrite Hp2, Hp1; reflexivity|].
    split; [apply zset_of_zadd_same|]. split.
    + intros other Hne. apply zset_of_zadd_other. exact Hne.
    + simpl. rewrite <- !app_assoc. reflexivity.
Qed.

Lemma successful_request_records_activity_witness :
  exists w', store (get_as "u1") stats_redis_up = Returned tt w'
    /\ response w' = (response stats_redis_up ++ [WString summary_10_4])%list
    /\ redis.zset_of (rds w') "u1"
       = <[activity_label "store" "GET" := time.Nanosecond (now stats_redis_up)]>
           (redis.zset_of (rds stats_redis_up) "u1")
    /\ (forall other, other <> "u1" ->
          redis.zset_of (rds w') other = redis.zset_of (rds stats_redis_up) other)
    /\ calls w'
       = (calls (world_of (storeBook (world_of (connectElasticSearch stats_redis_up))))
          ++ [Redis_Ping;
              Redis_ZAdd "u1" (redis.mkZ (time.Nanosecond (now stats_redis_up))
                                         (activity_label "store" "GET"))])%list.
Proof.
  refine (proj1 (proj2 (successful_request_records_activity no_time id (get_as "u1")
                          stats_redis_up "PONG" _ eq_refl eq_refl))
                (world_of (connectElasticSearch stats_redis_up))
                (world_of (storeBook (world_of (connectElasticSearch stats_redis_up))))
                summary_10_4 eq_refl eq_refl eq_refl).
  vm_compute. discriminate.
Defined.

(** ** More on the activity reader *)

(** X11. [activity] always ends normally and only reads: whatever the
    request and the state of Redis, it returns, leaves the logs and the
    document store as they were, pings Redis once and after that makes
    at most the one range query on the user's key. *)
Theorem activity_only_reads (req : Request) (w : World) :
  exists w' cs,
    activity req w = Returned tt w'
    /\ rds w' = rds w /\ es w' = es w /\ now w' = now w
    /\ calls w' = (calls w ++ Redis_Ping :: cs)%list
    /\ (cs = [] \/ cs = [Redis_ZRevRangeWithScores (getParamValue req "user_id") 0 2]).
Proof.
  unfold activity, connectRedis, redis_Ping, redis_ZRevRangeWithScores.
  unfold mbind, mret, Go_bind, Go_ret, bind, ret, record, ask_redis. simpl.
  destruct (redis.ping (rds w)) as [pong|e]; simpl.
  - case_bool_decide as Hget; simpl.
    + case_bool_decide as Huser; simpl.
      * destruct (redis.command_error (rds w)) as [e|]; simpl.
        -- eexists _, _. split; [reflexivity|]. simpl.
           rewrite <- app_assoc. repeat split; eauto.
        -- rewrite for_range_Fprintf. eexists _, _. split; [reflexivity|]. simpl.
           rewrite <- app_assoc. repeat split; eauto.
      * eexists _, []. repeat split; eauto.
    + eexists _, []. repeat split; eauto.
  - eexists _, []. repeat split; eauto.
Qed.

(** X12. The two failures of [activity]: when Redis does not answer the
    ping the only output is that error wrapped with [cannot connect to
    Redis]; when it answers the ping and then refuses the range query of
    a [GET] with a user id, the only output is that error wrapped with
    [cannot get key from Redis]. *)
Theorem activity_reports_redis_failure (req : Request) (w : World) (e : error) :
  (redis.ping (rds w) = inr e ->
   activity req w
   = Returned tt (wrote (WError (ErrorsWrap e "cannot connect to Redis"))
                        (called Redis_Ping w)))
  /\ (forall pong,
      redis.ping (rds w) = inl pong ->
      redis.command_error (rds w) = Some e ->
      Method req = "GET" ->
      getParamValue req "user_id" <> "" ->
      activity req w
      = Returned tt
          (wrote (WError (ErrorsWrap e "cannot get key from Redis"))
                 (called (Redis_ZRevRangeWithScores (getParamValue req "user_id") 0 2)
                         (called Redis_Ping w)))).
Proof.
  split.
  - intros Hping. unfold activity, connectRedis, redis_Ping.
    unfold mbind, mret, Go_bind, Go_ret, bind, ret, record, ask_redis. simpl.
    rewrite Hping. reflexivity.
  - intros pong Hping Hcmd Hget Huser.
    unfold activity, connectRedis, redis_Ping, redis_ZRevRangeWithScores.
    unfold mbind, mret, Go_bind, Go_ret, bind, ret, record, ask_redis. simpl.
    rewrite Hping. simpl. rewrite Hget. simpl.
    rewrite bool_decide_true by exact Huser. simpl. rewrite Hcmd. reflexivity.
Qed.

Lemma activity_reports_redis_failure_witness :
  activity (get_as "u1") stats_redis_down
  = Returned tt (wrote (WError (ErrorsWrap no_answer "cannot connect to Redis"))
                       (called Redis_Ping stats_redis_down)).
Proof.
  apply (proj1 (activity_reports_redis_failure (get_as "u1") stats_redis_down no_answer)).
  reflexivity.
Defined.
(** ** The calls of a request *)

Ltac innermost_step :=
  match goal with
  | |- context [match ?x with _ => _ end] =>
      lazymatch x with
      | context [match _ with _ => _ end] => fail
      | _ => destruct x; simpl
      end
  end.

Ltac calls_shape n :=
  first
    [ exists n, (ES_Get "" "" ""); split; [lia|]; split; [reflexivity|];
      simpl; rewrite <- ?app_assoc; reflexivity
    | eexists n, _; split; [lia|]; split;
      [|simpl; rewrite <- ?app_assoc; reflexivity]; reflexivity ].

Ltac calls_shape_any :=
  first [calls_shape 1%nat | calls_shape 2%nat | calls_shape 3%nat | calls_shape 4%nat].

(** X13. No request repeats a call.  The calls [book], [store] and
    [search] add are always a beginning of the same sequence: the
    creation of the client, one store operation, the Redis ping, one
    ZADD on the user's key with the label of the route and the verb.
    So there is never a second store operation, never a call to Redis
    before the store operation, and never a ZADD without its ping. *)
Theorem request_calls_are_a_prefix
  (time_Parse : string -> string -> time.Time + error) (fmt_q : string -> string)
  (req : Request) (w : World) :
  let shape route (w' : World) :=
    exists n op,
      (1 <= n)%nat /\ is_store_operation op = true
      /\ calls w'
         = (calls w
            ++ take n (request_calls op (getParamValue req "user_id")
                         (redis.mkZ (time.Nanosecond (now w))
                                    (activity_label route (Method req)))))%list in
  shape "book" (world_of (book time_Parse fmt_q req w))
  /\ shape "store" (world_of (store req w))
  /\ shape "search" (world_of (search req w)).
Proof.
  intros shape. subst shape. cbv beta.
  destruct w as [docs [pong failure logs] t written made].
  split; [|split].
  - unfold book, connectElasticSearch, book_dispatch, getBook, deleteBook, updateBook,
           addBook, writeToRedis, connectRedis, redis_Ping, redis_ZAdd.
    go_unfold. simpl.
    destruct (new_simple_client docs); simpl; [calls_shape_any|].
    destruct (book_params time_Parse req) as [[[eb price] date]|err]; simpl;
      [|calls_shape_any].
    repeat (innermost_step; try calls_shape_any).
  - unfold store, report_then_result, connectElasticSearch, storeBook,
           writeToRedis, connectRedis, redis_Ping, redis_ZAdd.
    go_unfold. simpl.
    repeat (innermost_step; try calls_shape_any).
  - unfold search, report_then_result, connectElasticSearch, searchBook,
           writeToRedis, connectRedis, redis_Ping, redis_ZAdd.
    go_unfold. simpl.
    destruct (new_simple_client docs); simpl; [calls_shape_any|].
    destruct (search_priceRange _) as [range|err]; simpl; [|calls_shape_any].
    repeat (innermost_step; try calls_shape_any).
Qed.

(** ** Ranks in a log *)

Lemma NoDup_members (zs : gmap string Z) : NoDup (redis.Member <$> redis.entries zs).
Proof.
  unfold redis.entries. rewrite <- list_fmap_compose.
  apply (NoDup_fst_map_to_list zs).
Qed.

Lemma NoDup_members_zrevrange (s : redis.Server) (key : string) :
  NoDup (redis.Member <$> redis.zrevrange key 0 2 s).
Proof.
  rewrite zrevrange_take, fmap_take.
  eapply sublist_NoDup; [|apply sublist_take].
  rewrite ranked_Permutation. apply NoDup_members.
Qed.

Lemma zrevrange_length_exact (s : redis.Server) (key : string) :
  length (redis.zrevrange key 0 2 s) = (3 `min` size (redis.zset_of s key))%nat.
Proof.
  rewrite zrevrange_take, length_take, ranked_Permutation, length_entries. reflexivity.
Qed.

(** X14. A [GET] on [activity] for a user, with Redis answering, writes
    exactly as many lines as the log has entries, up to three, and never
    the same label twice. *)
Theorem activity_line_count (req : Request) (w : World) (pong : string) :
  redis.ping (rds w) = inl pong ->
  redis.command_error (rds w) = None ->
  Method req = "GET" ->
  getParamValue req "user_id" <> "" ->
  let userId := getParamValue req "user_id" in
  let resultSet := redis.zrevrange userId 0 2 (rds w) in
  response (world_of (activity req w))
    = (response w ++ (activity_line <$> resultSet))%list
  /\ length resultSet = (3 `min` size (redis.zset_of (rds w) userId))%nat
  /\ NoDup (redis.Member <$> resultSet).
Proof.
  intros Hping Hcmd Hget Huser userId resultSet.
  rewrite (activity_eval req w pong Hping Hcmd Hget Huser).
  split; [reflexivity|]. split.
  - apply zrevrange_length_exact.
  - apply NoDup_members_zrevrange.
Qed.

Lemma activity_line_count_witness :
  response (world_of (activity (get_as "u1") (sample_world (inr no_answer) four_actions)))
    = (response (sample_world (inr no_answer) four_actions)
       ++ (activity_line <$> redis.zrevrange "u1" 0 2 four_actions))%list
  /\ length (redis.zrevrange "u1" 0 2 four_actions)
     = (3 `min` size (redis.zset_of four_actions "u1"))%nat
  /\ NoDup (redis.Member <$> redis.zrevrange "u1" 0 2 four_actions).
Proof.
  refine (activity_line_count (get_as "u1") (sample_world (inr no_answer) four_actions)
            "PONG" eq_refl eq_refl eq_refl _).
  vm_compute. discriminate.
Defined.

Lemma ranked_head (zs : gmap string Z) (z : redis.ZEntry) :
  z ∈ redis.entries zs ->
  (forall z', z' ∈ redis.entries zs -> z' <> z -> redis.Score z' < redis.Score z) ->
  redis.ranked zs !! 0%nat = Some z.
Proof.
  intros Hz Hmax.
  assert (Hs : StronglySorted score_descending (redis.ranked zs)).
  { apply Sorted_StronglySorted; [apply _|].
    apply Sorted_weaken with redis.rev_before; [apply rev_before_score|].
    apply Sorted_merge_sort. apply _. }
  assert (Hp : redis.ranked zs ≡ₚ redis.entries zs) by apply merge_sort_Permutation.
  rewrite <- Hp in Hz.
  destruct (redis.ranked zs) as [|h rest] eqn:Hranked; [inversion Hz|].
  simpl. f_equal.
  destruct (decide (h = z)) as [Heq|Hne]; [exact Heq|exfalso].
  assert (Hh : h ∈ redis.entries zs) by (rewrite <- Hp; left).
  pose proof (Hmax h Hh Hne) as Hlt.
  apply elem_of_cons in Hz as [Hz|Hz]; [congruence|].
  apply StronglySorted_inv in Hs as [_ Hall].
  rewrite Forall_forall in Hall. apply Hall in Hz.
  unfold score_descending in Hz. lia.
Qed.

Lemma elem_of_entries_iff (zs : gmap string Z) (z : redis.ZEntry) :
  z ∈ redis.entries zs <-> zs !! redis.Member z = Some (redis.Score z).
Proof.
  unfold redis.entries. rewrite list_elem_of_fmap. split.
  - intros ([m sc] & -> & Hin). simpl. apply elem_of_map_to_list. exact Hin.
  - intros H. exists (redis.Member z, redis.Score z). split.
    + destruct z; reflexivity.
    + apply elem_of_map_to_list. exact H.
Qed.

(** X15. Recording and reading back.  After a successful append whose
    clock reading is above the score of every other entry of the user's
    log, the action just recorded has the first rank, and a [GET] on
    [activity] by that user writes its label as the first line. *)
Theorem newest_action_is_listed_first
  (userID route method : string) (w w' : World) :
  writeToRedis userID route method w = Returned None w' ->
  (forall m sc, m <> activity_label route method ->
     redis.zset_of (rds w) userID !! m = Some sc -> sc < time.Nanosecond (now w)) ->
  let newest := redis.mkZ (time.Nanosecond (now w)) (activity_label route method) in
  redis.zrevrange userID 0 2 (rds w') !! 0%nat = Some newest
  /\ (forall req w2,
        rds w2 = rds w' -> Method req = "GET" ->
        getParamValue req "user_id" = userID -> userID <> "" ->
        exists rest,
          response (world_of (activity req w2))
          = (response w2 ++ activity_line newest :: rest)%list).
Proof.
  intros Hrun Hhigher newest.
  destruct (writeToRedis_success_log _ _ _ _ _ Hrun) as [Hlog _].
  assert (Hfirst : redis.zrevrange userID 0 2 (rds w') !! 0%nat = Some newest).
  { rewrite zrevrange_take, lookup_take_lt by lia.
    apply ranked_head.
    - apply elem_of_entries_iff. rewrite Hlog. simpl. apply lookup_insert_eq.
    - intros z' Hz' Hne. apply elem_of_entries_iff in Hz'. rewrite Hlog in Hz'.
      destruct (decide (redis.Member z' = activity_label route method)) as [Hm|Hm].
      + rewrite Hm, lookup_insert_eq in Hz'. injection Hz' as Hsc.
        exfalso. apply Hne. destruct z' as [sc m]. simpl in *. subst. reflexivity.
      + rewrite lookup_insert_ne in Hz' by congruence.
        exact (Hhigher _ _ Hm Hz'). }
  split; [exact Hfirst|].
  intros req w2 Hrds Hget Hparam Huser.
  rewrite writeToRedis_eval in Hrun.
  destruct (redis.ping (rds w)) as [pong|err] eqn:Hping; [|discriminate]. cbv zeta in Hrun.
  destruct (redis.command_error (rds w)) eqn:Hcmd; [discriminate|].
  assert (Hflags : redis.ping (rds w') = inl pong /\ redis.command_error (rds w') = None).
  { injection Hrun as <-. simpl. rewrite Hping, Hcmd. split; reflexivity. }
  destruct Hflags as [Hping' Hcmd'].
  rewrite (activity_eval req w2 pong) by (rewrite ?Hrds, ?Hparam; assumption).
  simpl. rewrite Hparam, Hrds.
  destruct (redis.zrevrange userID 0 2 (rds w')) as [|first rest]; [discriminate|].
  injection Hfirst as ->. exists (activity_line <$> rest). reflexivity.
Qed.

Lemma newest_action_is_listed_first_witness :
  redis.zrevrange "u1" 0 2
    (rds (world_of (writeToRedis "u1" "store" "GET" (sample_world (inr no_answer) logged_once))))
    !! 0%nat
  = Some (redis.mkZ (time.Nanosecond (now (sample_world (inr no_answer) logged_once)))
                    (activity_label "store" "GET")).
Proof.
  refine (proj1 (newest_action_is_listed_first "u1" "store" "GET"
                   (sample_world (inr no_answer) logged_once)
                   (world_of (writeToRedis "u1" "store" "GET"
                                (sample_world (inr no_answer) logged_once)))
                   eq_refl _)).
  intros m sc _ Hm.
  change (redis.zset_of (rds (sample_world (inr no_answer) logged_once)) "u1")
    with (<[activity_label "book" "GET" := 5]> (∅ : gmap string Z)) in Hm.
  apply lookup_insert_Some in Hm as [[_ <-]|[_ Hm]].
  - vm_compute. reflexivity.
  - rewrite lookup_empty in Hm. discriminate.
Defined.

(** ** The score and the order of actions *)

Lemma entries_two (l1 l2 : string) (n1 n2 : Z) :
  l1 <> l2 ->
  redis.entries (<[l2 := n2]> (<[l1 := n1]> ∅)) ≡ₚ [redis.mkZ n1 l1; redis.mkZ n2 l2].
Proof.
  intros Hne. unfold redis.entries.
  rewrite map_to_list_insert by (rewrite lookup_insert_ne by congruence; apply lookup_empty).
  rewrite map_to_list_insert by apply lookup_empty.
  rewrite map_to_list_empty. simpl. apply perm_swap.
Qed.

(** X16. The score of an entry is the nanosecond within the second of
    the clock reading, nothing else, so the order of a log is not the
    order of time: when two different actions are recorded one after the
    other into an empty log and the second reading has the smaller
    nanosecond part, however much later it is, the first action keeps
    the first rank. *)
Theorem later_action_can_rank_lower
  (userID route1 method1 route2 method2 : string) (later : time.Time)
  (w w1 w2 : World) :
  redis.zset_of (rds w) userID = ∅ ->
  writeToRedis userID route1 method1 w = Returned None w1 ->
  writeToRedis userID route2 method2 (at_time later w1) = Returned None w2 ->
  activity_label route1 method1 <> activity_label route2 method2 ->
  time.Nanosecond later < time.Nanosecond (now w) ->
  redis.zrevrange userID 0 2 (rds w2)
  = [redis.mkZ (time.Nanosecond (now w)) (activity_label route1 method1);
     redis.mkZ (time.Nanosecond later) (activity_label route2 method2)].
Proof.
  intros Hempty Hrun1 Hrun2 Hlabels Hwrap.
  destruct (writeToRedis_success_log _ _ _ _ _ Hrun1) as [Hlog1 _].
  destruct (writeToRedis_success_log _ _ _ _ _ Hrun2) as [Hlog2 _].
  change (rds (at_time later w1)) with (rds w1) in Hlog2.
  change (now (at_time later w1)) with later in Hlog2.
  rewrite Hlog1, Hempty in Hlog2.
  rewrite zrevrange_take, take_ge.
  - apply (StronglySorted_unique_strong score_descending).
    + intros x1 x2 Hx1 Hx2 H12 H21. unfold score_descending in *.
      rewrite ranked_Permutation, Hlog2, (entries_two _ _ _ _ Hlabels) in Hx1.
      apply elem_of_cons in Hx1 as [->|Hx1]; [|apply list_elem_of_singleton in Hx1 as ->];
        apply elem_of_cons in Hx2 as [->|Hx2];
        try (apply list_elem_of_singleton in Hx2 as ->); simpl in *;
        first [reflexivity | lia].
    + apply ranked_sorted.
    + apply SSorted_cons; [apply SSorted_cons; [apply SSorted_nil | constructor]|].
      apply Forall_singleton. unfold score_descending. simpl. lia.
    + rewrite ranked_Permutation, Hlog2. apply entries_two. exact Hlabels.
  - rewrite ranked_Permutation, Hlog2, (entries_two _ _ _ _ Hlabels). simpl. lia.
Qed.

Lemma later_action_can_rank_lower_witness :
  redis.zrevrange "u1" 0 2
    (rds (world_of
            (writeToRedis "u1" "search" "GET"
               (at_time (time.mkTime 1540000060 3 0)
                  (world_of (writeToRedis "u1" "book" "PUT"
                               (sample_world (inr no_answer) empty_redis)))))))
  = [redis.mkZ (time.Nanosecond (now (sample_world (inr no_answer) empty_redis)))
               (activity_label "book" "PUT");
     redis.mkZ (time.Nanosecond (time.mkTime 1540000060 3 0))
               (activity_label "search" "GET")].
Proof.
  apply (later_action_can_rank_lower "u1" "book" "PUT" "search" "GET"
           (time.mkTime 1540000060 3 0)
           (sample_world (inr no_answer) empty_redis)
           (world_of (writeToRedis "u1" "book" "PUT"
                        (sample_world (inr no_answer) empty_redis)))).
  - reflexivity.
  - reflexivity.
  - reflexivity.
  - vm_compute. discriminate.
  - vm_compute. reflexivity.
Defined.

(** ** Results of a search and missing fields *)

Lemma slice_of_strings_nonempty (l : list string) : fmt.slice_of_strings l <> "".
Proof. unfold fmt.slice_of_strings. discriminate. Qed.

(** X17. When [searchBook] returns, the store has answered with a page
    of hits; the result is the empty string exactly when the page is
    empty, and otherwise it is the sources of the hits, in the order of
    the page, between brackets. *)
Theorem searchBook_result_of_page
  (title authorName : string) (priceRange : Range) (w w' : World)
  (result : string) (err : option error) :
  searchBook title authorName priceRange w = Returned (result, err) w' ->
  exists searchResult hits,
    search_do (es w) (searchBook_request (searchBook_query title authorName priceRange))
      = inl searchResult
    /\ elastic.Hits searchResult = Some hits
    /\ (result = "" <-> elastic.Hits_Hits hits = [])
    /\ (elastic.Hits_Hits hits <> [] ->
        exists sources,
          mapM elastic.Source (elastic.Hits_Hits hits) = Some sources
          /\ result = fmt.slice_of_strings sources).
Proof.
  unfold searchBook. go_unfold. simpl.
  destruct (search_do (es w) _) as [sr|e]; [|discriminate].
  destruct (elastic.Hits sr) as [hits|] eqn:Hhits; [|discriminate].
  destruct (elastic.Hits_Hits hits) as [|hit page] eqn:Hpage.
  - change (0 <? length (@nil elastic.SearchHit))%nat with false. cbv iota.
    intros [= <- <- <-]. exists sr, hits. rewrite Hhits, Hpage.
    repeat split; try reflexivity. intros Hne. congruence.
  - change (0 <? length (hit :: page))%nat with true. cbv iota.
    destruct (mapM elastic.Source (hit :: page)) as [sources|] eqn:Hsources;
      [|discriminate].
    intros [= <- <- <-]. exists sr, hits. rewrite Hhits, Hpage.
    split; [reflexivity|]. split; [reflexivity|]. split.
    + split; [intros H; exfalso; exact (slice_of_strings_nonempty _ H) | discriminate].
    + intros _. exists sources. split; [exact Hsources | reflexivity].
Qed.

Lemma searchBook_result_of_page_witness :
  exists searchResult hits,
    search_do (es (sample_world (inl two_hits) empty_redis))
              (searchBook_request (searchBook_query "" "" unset))
      = inl searchResult
    /\ elastic.Hits searchResult = Some hits
    /\ ("[{a} {b}]" = "" <-> elastic.Hits_Hits hits = [])
    /\ (elastic.Hits_Hits hits <> [] ->
        exists sources,
          mapM elastic.Source (elastic.Hits_Hits hits) = Some sources
          /\ "[{a} {b}]" = fmt.slice_of_strings sources).
Proof.
  apply (searchBook_result_of_page "" "" unset (sample_world (inl two_hits) empty_redis)
           (world_of (searchBook "" "" unset (sample_world (inl two_hits) empty_redis)))
           "[{a} {b}]" None).
  reflexivity.
Defined.

(** X18. A field the store leaves out is dereferenced all the same: a
    hit without source makes [searchBook] panic, a found document
    without source makes [getBook] panic, and a cardinality metric
    without value, or a result without hits next to a metric, makes
    [storeBook] panic. *)
Theorem missing_field_panics (w : World) :
  (forall title authorName priceRange searchResult hits hit,
      search_do (es w) (searchBook_request (searchBook_query title authorName priceRange))
        = inl searchResult ->
      elastic.Hits searchResult = Some hits ->
      hit ∈ elastic.Hits_Hits hits -> elastic.Source hit = None ->
      searchBook title authorName priceRange w
      = Panicked (called (ES_Search (searchBook_request
                                       (searchBook_query title authorName priceRange))) w))
  /\ (forall id get,
      get_do (es w) "books" "book" id = inl get ->
      elastic.gr_Found get = true -> elastic.gr_Source get = None ->
      getBook id w = Panicked (called (ES_Get "books" "book" id) w))
  /\ (forall searchResult metric,
      search_do (es w) storeBook_request = inl searchResult ->
      elastic.Cardinality (elastic.Aggregations searchResult) "distinctAuthors"
        = Some metric ->
      elastic.Hits searchResult = None \/ elastic.Value metric = None ->
      storeBook w = Panicked (called (ES_Search storeBook_request) w)).
Proof.
  split; [|split].
  - intros title authorName priceRange sr hits hit Hreply Hhits Hin Hsource.
    unfold searchBook. go_unfold. simpl. rewrite Hreply, Hhits.
    destruct (elastic.Hits_Hits hits) as [|first page] eqn:Hpage; [inversion Hin|].
    change (0 <? length (first :: page))%nat with true. cbv iota.
    destruct (mapM elastic.Source (first :: page)) as [sources|] eqn:Hsources;
      [|reflexivity].
    exfalso. assert (Hall : is_Some (mapM elastic.Source (first :: page))) by eauto.
    apply mapM_is_Some in Hall. rewrite Forall_forall in Hall.
    apply Hall in Hin. simpl in Hin. rewrite Hsource in Hin. destruct Hin; discriminate.
  - intros id get Hreply Hfound Hsource.
    unfold getBook. go_unfold. simpl. rewrite Hreply, Hfound, Hsource. reflexivity.
  - intros sr metric Hreply Hfound Hmissing.
    unfold storeBook. go_unfold. simpl. rewrite Hreply, Hfound.
    destruct (elastic.Hits sr) as [hits|]; [|reflexivity].
    destruct Hmissing as [Hm|Hm]; [discriminate|]. rewrite Hm. reflexivity.
Qed.

Lemma missing_field_panics_witness :
  storeBook (sample_world (inl metric_without_value) empty_redis)
  = Panicked (called (ES_Search storeBook_request)
                     (sample_world (inl metric_without_value) empty_redis)).
Proof.
  apply (proj2 (proj2 (missing_field_panics (sample_world (inl metric_without_value) empty_redis)))
           metric_without_value (elastic.mkValueMetric None)).
  - reflexivity.
  - reflexivity.
  - right. reflexivity.
Defined.

(** X19. A [PUT] on [book] without [ebook_available], [price] and
    [publish_date] does not fail: the document sent to the store holds
    [false], [0] and the zero time for them. *)
Theorem absent_fields_are_stored_as_zero
  (time_Parse : string -> string -> time.Time + error) (fmt_q : string -> string)
  (req : Request) (w : World) :
  new_simple_client (es w) = None ->
  Method req = "PUT" ->
  getParamValue req "ebook_available" = "" ->
  getParamValue req "price" = "" ->
  getParamValue req "publish_date" = "" ->
  exists cs,
    calls (world_of (book time_Parse fmt_q req w))
    = (calls w
       ++ ES_NewSimpleClient URL
          :: ES_Index "books" "book" (getParamValue req "id")
               (mkBook (getParamValue req "title") (getParamValue req "author_name")
                       0 false time.zero)
          :: cs)%list.
Proof.
  intros Hclient Hput Hebook Hprice Hdate.
  assert (Hparams : book_params time_Parse req = inl (false, 0, time.zero)).
  { unfold book_params. rewrite Hebook, Hprice, Hdate. reflexivity. }
  unfold book. go_bind. rewrite (connect_ok w Hclient), Hparams.
  unfold book_dispatch. rewrite Hput. simpl.
  unfold addBook, writeToRedis, connectRedis, redis_Ping, redis_ZAdd. go_unfold. simpl.
  repeat (innermost_step;
          try (eexists; rewrite <- ?app_assoc; simpl; reflexivity)).
Qed.

Lemma absent_fields_are_stored_as_zero_witness :
  exists cs,
    calls (world_of (book no_time id put_title_only store_down))
    = (calls store_down
       ++ ES_NewSimpleClient URL
          :: ES_Index "books" "book" "1" (mkBook "Dune" "" 0 false time.zero)
          :: cs)%list.
Proof.
  apply (absent_fields_are_stored_as_zero no_time id put_title_only store_down);
    reflexivity.
Defined.

(** ** Requests without a user id, and what a search sends *)

(** X21. When the primary operation of a request without user id has
    returned its result without error, the handler writes the result and
    is done: the world it leaves is the one the primary operation left,
    with the result written. *)
Theorem anonymous_request_writes_result
  (time_Parse : string -> string -> time.Time + error) (fmt_q : string -> string)
  (req : Request) (w : World) :
  getParamValue req "user_id" = "" ->
  (forall w1 w2 ebookAvailable price publishDate result,
      connectElasticSearch w = Returned None w1 ->
      book_params time_Parse req = inl (ebookAvailable, price, publishDate) ->
      book_dispatch fmt_q (Method req) (getParamValue req "id")
        (getParamValue req "title") (getParamValue req "author_name")
        price ebookAvailable publishDate w1 = Returned (result, None) w2 ->
      book time_Parse fmt_q req w = Returned tt (wrote (WString result) w2))
  /\ (forall w1 w2 result,
      connectElasticSearch w = Returned None w1 ->
      Method req = "GET" ->
      storeBook w1 = Returned (result, None) w2 ->
      store req w = Returned tt (wrote (WString result) w2))
  /\ (forall w1 w2 range result,
      connectElasticSearch w = Returned None w1 ->
      search_priceRange (getParamValue req "price_range") = inl range ->
      Method req = "GET" ->
      searchBook (getParamValue req "title") (getParamValue req "author_name") range w1
        = Returned (result, None) w2 ->
      search req w = Returned tt (wrote (WString result) w2)).
Proof.
  intros Huser. split; [|split].
  - intros w1 w2 eb price date result Hconn Hparams Hprimary.
    unfold book. go_bind. rewrite Hconn, Hparams, Hprimary, Huser. reflexivity.
  - intros w1 w2 result Hconn Hget Hprimary.
    unfold store, report_then_result. go_bind. rewrite Hconn, Hget. simpl.
    rewrite Hprimary, Huser. reflexivity.
  - intros w1 w2 range result Hconn Hrange Hget Hprimary.
    unfold search, report_then_result. go_bind. rewrite Hconn, Hrange, Hget. simpl.
    rewrite Hprimary, Huser. reflexivity.
Qed.

Lemma anonymous_request_writes_result_witness :
  store plain_get stats_redis_up
  = Returned tt
      (wrote (WString summary_10_4)
             (world_of (storeBook (world_of (connectElasticSearch stats_redis_up))))).
Proof.
  apply (proj1 (proj2 (anonymous_request_writes_result no_time id plain_get
                         stats_redis_up eq_refl))
               (world_of (connectElasticSearch stats_redis_up))); reflexivity.
Defined.

(** X22. A [GET] on [search] whose price range converts sends the store,
    as its one operation, the query composed from the [title],
    [author_name] and [price_range] parameters, on index [books], sorted
    by title ascending, from hit 0, at most 10 hits. *)
Theorem search_sends_query_of_parameters (req : Request) (w : World) (range : Range) :
  new_simple_client (es w) = None ->
  Method req = "GET" ->
  search_priceRange (getParamValue req "price_range") = inl range ->
  exists cs,
    calls (world_of (search req w))
    = (calls w
       ++ ES_NewSimpleClient URL
          :: ES_Search
               (elastic.mkSearchRequest "books"
                  (Some (searchBook_query (getParamValue req "title")
                                          (getParamValue req "author_name") range))
                  (Some ("title", true)) (Some 0) (Some 10) true [])
          :: cs)%list
    /\ Forall (fun c => is_redis_call c = true) cs.
Proof.
  intros Hclient Hget Hrange.
  destruct w as [docs [pong failure logs] t written made]. simpl in Hclient.
  unfold search, report_then_result, connectElasticSearch, searchBook, searchBook_request,
         writeToRedis, connectRedis, redis_Ping, redis_ZAdd.
  go_unfold. simpl. rewrite Hclient, Hrange, Hget. simpl.
  repeat (innermost_step;
          try (eexists; split;
               [rewrite <- ?app_assoc; simpl; reflexivity | repeat constructor])).
Qed.

Lemma search_sends_query_of_parameters_witness :
  exists cs,
    calls (world_of (search search_dune_10_20 store_down))
    = (calls store_down
       ++ ES_NewSimpleClient URL
          :: ES_Search
               (elastic.mkSearchRequest "books"
                  (Some (searchBook_query "Dune" "" (mkRange 10 20)))
                  (Some ("title", true)) (Some 0) (Some 10) true [])
          :: cs)%list
    /\ Forall (fun c => is_redis_call c = true) cs.
Proof.
  apply (search_sends_query_of_parameters search_dune_10_20 store_down (mkRange 10 20));
    reflexivity.
Defined.
